(** * RiskAgent risk engine: scoring, recommendations, persistence glue

    A shallow embedding of the Python package [risk-engine/app]:

    - [app/logic/risk_scoring.py]    the additive scoring engine (0-1 scale),
    - [app/logic/risk_calculator.py] the weighted scoring engine (0-100 scale)
                                     and the recommendation generator,
    - [app/models.py]                the [RiskEvaluation] row and its
                                     [explanations] property,
    - [app/routes.py]                the [POST /api/evaluate] handler and
                                     the two lookups of stored evaluations.

    Python [float] is IEEE-754 binary64 and is embedded as Rocq's primitive
    [float], so every addition, product and comparison below rounds exactly as
    the interpreter does.  The strings the engines compare and build (sector
    names, levels, explanations, recommendations) are embedded as [string]: a
    sequence of characters with code points below 256 (ASCII and Latin-1).
    The text of the [explanations] column and the JSON codec that writes and
    reads it are embedded over sequences of Unicode code points, surrogates
    included ([Unicode.str]).  Diagnostic logging is embedded as an explicit
    trace of log records returned next to the result. *)

From Stdlib Require Import Bool List ZArith NArith Ascii String Floats Lia.
Import ListNotations.

Set Warnings "-inexact-float,-register-all".

Local Open Scope string_scope.
Local Open Scope list_scope.

(** ** Python strings *)

Module PyStr.

(** The upper-case letters below code point 256: ['A'..'Z'] and the
    Latin-1 capitals (192..222 without the multiplication sign 215).  Each
    has its lower-case form 32 code points above it. *)
Definition is_upper (c : ascii) : bool :=
  let n := nat_of_ascii c in
  (((65 <=? n) && (n <=? 90))
   || ((192 <=? n) && (n <=? 222) && negb (n =? 215)))%nat.

(** The lower-case letters whose upper-case form is 32 code points below:
    ['a'..'z'] and the Latin-1 small letters (224..254 without the division
    sign 247). *)
Definition is_lower (c : ascii) : bool :=
  let n := nat_of_ascii c in
  (((97 <=? n) && (n <=? 122))
   || ((224 <=? n) && (n <=? 254) && negb (n =? 247)))%nat.

Definition lower_char (c : ascii) : ascii :=
  if is_upper c then ascii_of_nat (nat_of_ascii c + 32) else c.

(** Title-casing of one character.  The three characters below 256 whose
    title-case form lies beyond code point 255 (the micro sign, the sharp s
    and the y with diaeresis) are left as they are. *)
Definition upper_char (c : ascii) : ascii :=
  if is_lower c then ascii_of_nat (nat_of_ascii c - 32) else c.

(** [s.lower()] *)
Fixpoint lower (s : string) : string :=
  match s with
  | EmptyString => EmptyString
  | String c rest => String (lower_char c) (lower rest)
  end.

(** [s.capitalize()]: first character upper-cased, the rest lower-cased. *)
Definition capitalize (s : string) : string :=
  match s with
  | EmptyString => EmptyString
  | String c rest => String (upper_char c) (lower rest)
  end.

(** [s in l] for a list of strings [l]. *)
Definition mem (s : string) (l : list string) : bool :=
  existsb (String.eqb s) l.

(** Truthiness of a string: [bool(s)]. *)
Definition truthy (s : string) : bool :=
  match s with
  | EmptyString => false
  | String _ _ => true
  end.

End PyStr.

(** ** Python values carried by [additional_factors : Dict[str, Any]] *)

Inductive PyValue : Type :=
| PyNone
| PyBool (b : bool)
| PyInt (z : Z)
| PyFloat (f : float)
| PyString (s : string)
| PyList (items : list PyValue)
| PyDict (items : list (string * PyValue)).

(** A [dict] with string keys, in insertion order (the order [.items()]
    iterates in). *)
Definition PyFactors : Type := list (string * PyValue).

(** The exceptions of the modelled code. *)
Inductive PyException : Type :=
| ValueError.

(** What a call comes to: the value it returns or the exception it raises. *)
Inductive Outcome (A : Type) : Type :=
| Returned (value : A)
| Raised (exception : PyException).

Arguments Returned {A} value.
Arguments Raised {A} exception.

(** The interpreter's default limit on the decimal digits of an int it
    converts to text ([sys.int_info.default_max_str_digits]). *)
Definition int_max_str_digits : Z := 4300.

(** Whether [f"{value}"] yields a text: converting an int of more than
    [int_max_str_digits] digits raises [ValueError], also when the int sits
    inside a list or a dict.  Lists and dicts nested beyond the interpreter's
    recursion limit are not considered. *)
Fixpoint renders (value : PyValue) : bool :=
  match value with
  | PyInt z => (Z.abs z <? 10 ^ int_max_str_digits)%Z
  | PyList items => forallb renders items
  | PyDict items => forallb (fun item => renders (snd item)) items
  | PyNone | PyBool _ | PyFloat _ | PyString _ => true
  end.

(** ** Logging

    [logger.info], [logger.debug] and [logger.error] append a record to the
    trace; the message is kept as its template and the values interpolated
    into it. *)

Module Log.

Inductive Level : Type := INFO | DEBUG | ERROR.

Inductive Message : Type :=
| Computing (company_name user_id : string)
| Added (amount : float) (reason : string) (value : float)
| AddedSector (amount : float) (sector : string)
| AdditionalFactor (factor : string) (value : PyValue)
| Capped (limit : float)
| Completed (company_name : string) (score : float) (risk_level : string)
| Requested (company_name : string)
| Stored (evaluation_id : option Z)
| StoreError (reason : string).

Record Record_ : Type := mk { level : Level; message : Message }.

Definition Trace : Type := list Record_.

(** A computation that logs: its value and the records it emitted. *)
Definition Logged (A : Type) : Type := (A * Trace)%type.

Definition ret {A : Type} (a : A) : Logged A := (a, []).

Definition bind {A B : Type} (m : Logged A) (k : A -> Logged B) : Logged B :=
  let '(a, t1) := m in
  let '(b, t2) := k a in
  (b, t1 ++ t2).

Definition info (m : Message) : Logged unit := (tt, [mk INFO m]).
Definition debug (m : Message) : Logged unit := (tt, [mk DEBUG m]).
Definition error (m : Message) : Logged unit := (tt, [mk ERROR m]).

(** The value of a logging computation, its trace dropped. *)
Definition value {A : Type} (m : Logged A) : A := fst m.

(** [for x in l: body x] for a body that only logs. *)
Fixpoint for_each {A : Type} (l : list A) (body : A -> Logged unit)
  : Logged unit :=
  match l with
  | [] => ret tt
  | x :: rest => bind (body x) (fun _ => for_each rest body)
  end.

End Log.

Declare Scope logged_scope.
Delimit Scope logged_scope with logged.
Notation "x <- m ;; k" := (Log.bind m (fun x => k))
  (at level 61, m at next level, right associativity) : logged_scope.
Notation "' p <- m ;; k" := (Log.bind m (fun p => k))
  (at level 61, p pattern, m at next level, right associativity)
  : logged_scope.
Notation "m ;;; k" := (Log.bind m (fun _ => k))
  (at level 61, right associativity) : logged_scope.

(** ** [app/logic/risk_scoring.py]: the additive engine *)

Module RiskScoring.

Local Open Scope logged_scope.
Local Open Scope float_scope.

(** The state the rule block works on: the running [score] and the
    [explanations] list. *)
Definition Acc : Type := (float * list string)%type.

(** Lines 41-72: the five rules, each an [if] that adds to [score], appends
    its explanation and logs. *)
Definition apply_rules (debt_to_equity net_profit negative_news_score
                        late_payments_rate : float) (sector : string)
  : Log.Logged Acc :=
  let score := 0.0 in
  let explanations : list string := [] in
  '(score, explanations) <-
     (if 2 <? debt_to_equity then
        Log.debug (Log.Added 0.3 "high debt-to-equity ratio" debt_to_equity) ;;;
        Log.ret (score + 0.3, explanations ++ ["High debt-to-equity ratio"])
      else Log.ret (score, explanations)) ;;
  '(score, explanations) <-
     (if net_profit <? 0 then
        Log.debug (Log.Added 0.2 "negative profit" net_profit) ;;;
        Log.ret (score + 0.2, explanations ++ ["Negative profitability"])
      else Log.ret (score, explanations)) ;;
  '(score, explanations) <-
     (if 0.5 <? negative_news_score then
        Log.debug (Log.Added 0.2 "negative news" negative_news_score) ;;;
        Log.ret (score + 0.2, explanations ++ ["Significant negative news"])
      else Log.ret (score, explanations)) ;;
  '(score, explanations) <-
     (if 0.1 <? late_payments_rate then
        Log.debug (Log.Added 0.15 "late payments" late_payments_rate) ;;;
        Log.ret (score + 0.15, explanations ++ ["High late payments rate"])
      else Log.ret (score, explanations)) ;;
  (if PyStr.mem (PyStr.lower sector) ["oil"; "gas"; "energy"] then
     Log.debug (Log.AddedSector 0.1 sector) ;;;
     Log.ret (score + 0.1, explanations ++ ["High-volatility sector"])
   else Log.ret (score, explanations)).

(** Lines 74-78: [additional_factors] is only walked through for logging.
    [None] and the empty dict are both falsy. *)
Definition process_additional_factors (additional_factors : option PyFactors)
  : Log.Logged unit :=
  match additional_factors with
  | None => Log.ret tt
  | Some [] => Log.ret tt
  | Some items =>
      Log.for_each items
        (fun '(factor, value) => Log.debug (Log.AdditionalFactor factor value))
  end.

(** Lines 80-83: the cap. *)
Definition cap (score : float) : Log.Logged float :=
  if 1 <? score then Log.debug (Log.Capped 1.0) ;;; Log.ret 1.0
  else Log.ret score.

(** Lines 85-91: the risk level of a score. *)
Definition risk_level_of (score : float) : string :=
  if 0.7 <=? score then "High Risk"
  else if 0.4 <=? score then "Medium Risk"
  else "Low Risk".

(** [compute_risk_score] of [risk_scoring.py]. *)
Definition compute_risk_score
    (user_id company_name : string)
    (debt_to_equity net_profit negative_news_score late_payments_rate : float)
    (sector : string) (additional_factors : option PyFactors)
  : Log.Logged (float * string * list string) :=
  Log.info (Log.Computing company_name user_id) ;;;
  '(score, explanations) <-
     apply_rules debt_to_equity net_profit negative_news_score
                 late_payments_rate sector ;;
  process_additional_factors additional_factors ;;;
  score <- cap score ;;
  let risk_level := risk_level_of score in
  Log.info (Log.Completed company_name score risk_level) ;;;
  Log.ret (score, risk_level, explanations).

(** The score before the cap of lines 80-83. *)
Definition raw_score (debt_to_equity net_profit negative_news_score
                      late_payments_rate : float) (sector : string) : float :=
  fst (Log.value (apply_rules debt_to_equity net_profit negative_news_score
                              late_payments_rate sector)).

(** The messages of the trace are kept unrendered; the interpreter renders
    them before it logs.  The one rendering that can fail is that of an
    additional factor's value (line 77): the loop then raises [ValueError]
    and the call returns nothing. *)
Definition raises (additional_factors : option PyFactors) : bool :=
  match additional_factors with
  | None => false
  | Some items => negb (forallb (fun item => renders (snd item)) items)
  end.

(** The outcome of a call of [compute_risk_score]. *)
Definition outcome
    (user_id company_name : string)
    (debt_to_equity net_profit negative_news_score late_payments_rate : float)
    (sector : string) (additional_factors : option PyFactors)
  : Outcome (float * string * list string) :=
  if raises additional_factors then Raised ValueError
  else Returned
         (Log.value
            (compute_risk_score user_id company_name debt_to_equity
               net_profit negative_news_score late_payments_rate sector
               additional_factors)).

End RiskScoring.

(** ** [app/logic/risk_calculator.py]: the weighted engine and the
    recommendation generator *)

Module RiskCalculator.

Local Open Scope logged_scope.
Local Open Scope float_scope.

(** A [dict] from strings to floats, in insertion order. *)
Definition FloatDict : Type := list (string * float).

(** [d.get(key, default)] *)
Fixpoint dict_get (d : FloatDict) (key : string) (default : float) : float :=
  match d with
  | [] => default
  | (k, v) :: rest => if String.eqb k key then v else dict_get rest key default
  end.

(** [sum(d.values())]: a left fold of [+] that starts from [0]. *)
Definition sum_values (d : FloatDict) : float :=
  fold_left (fun acc kv => acc + snd kv) d 0.

Definition WEIGHTS : FloatDict :=
  [ ("debt_to_equity", 0.30);
    ("net_profit", 0.25);
    ("negative_news", 0.20);
    ("late_payments", 0.25) ].

Definition SECTOR_ADJUSTMENTS : FloatDict :=
  [ ("technology", 1.0);
    ("healthcare", 0.9);
    ("finance", 1.2);
    ("retail", 1.1);
    ("manufacturing", 1.05);
    ("energy", 1.3);
    ("oil", 1.3);
    ("gas", 1.3);
    ("real_estate", 1.15);
    ("telecommunications", 0.95);
    ("utilities", 0.85);
    ("consumer_goods", 1.0);
    ("general", 1.0) ].

(** [WEIGHTS[key]]; every key the module subscripts with is present. *)
Definition weight (key : string) : float := dict_get WEIGHTS key 0.

(** The factor helpers append to the caller's [explanations] list and return
    the factor: the list is threaded through. *)
Definition calculate_debt_to_equity_factor
    (debt_to_equity : float) (explanations : list string)
  : float * list string :=
  if debt_to_equity <=? 1.0 then
    (0.2, explanations ++ ["Debt-to-equity ratio is within healthy range"])
  else if debt_to_equity <=? 2.0 then
    (0.5, explanations ++
          ["Debt-to-equity ratio indicates moderate financial leverage"])
  else if debt_to_equity <=? 3.0 then
    (0.7, explanations ++
          ["High debt-to-equity ratio increases financial risk"])
  else
    (1.0, explanations ++
          ["Very high debt-to-equity ratio indicates significant financial leverage"]).

Definition calculate_net_profit_factor
    (net_profit : float) (explanations : list string)
  : float * list string :=
  if 500000 <? net_profit then
    (0.1, explanations ++
          ["Strong positive net profit indicates excellent financial health"])
  else if 100000 <? net_profit then
    (0.3, explanations ++
          ["Positive net profit indicates good financial health"])
  else if 0 <? net_profit then
    (0.5, explanations ++ ["Modest positive net profit"])
  else if (-100000) <? net_profit then
    (0.7, explanations ++
          ["Negative net profit shows concerning financial performance"])
  else
    (1.0, explanations ++
          ["Significant losses indicate serious financial challenges"]).

Definition calculate_negative_news_factor
    (negative_news_score : float) (explanations : list string)
  : float * list string :=
  if negative_news_score <=? 0.2 then
    (0.2, explanations ++ ["Low negative news coverage"])
  else if negative_news_score <=? 0.4 then
    (0.5, explanations ++ ["Moderate negative news coverage"])
  else if negative_news_score <=? 0.6 then
    (0.7, explanations ++
          ["Negative press coverage may impact business reputation"])
  else
    (1.0, explanations ++
          ["High negative news coverage suggests significant reputational risk"]).

Definition calculate_late_payments_factor
    (late_payments_rate : float) (explanations : list string)
  : float * list string :=
  if late_payments_rate <=? 0.05 then
    (0.1, explanations ++
          ["Low rate of late payments suggests good cash flow management"])
  else if late_payments_rate <=? 0.1 then
    (0.4, explanations ++ ["Moderate rate of late payments"])
  else if late_payments_rate <=? 0.2 then
    (0.7, explanations ++
          ["Elevated late payments rate may indicate cash flow issues"])
  else
    (1.0, explanations ++
          ["High rate of late payments suggests cash flow problems"]).

(** Lines 86-95: the sector multiplier and the explanation it adds. *)
Definition sector_explanation (sector : string) (sector_multiplier : float)
  : string :=
  if 1.0 <? sector_multiplier then
    PyStr.capitalize sector ++ " sector has higher than average baseline risk"
  else if sector_multiplier <? 1.0 then
    PyStr.capitalize sector ++ " sector has lower than average baseline risk"
  else
    PyStr.capitalize sector ++ " sector has moderate baseline risk".

(** Lines 105-109. *)
Definition process_additional_factors (additional_factors : option PyFactors)
  : Log.Logged unit :=
  match additional_factors with
  | None => Log.ret tt
  | Some [] => Log.ret tt
  | Some items =>
      Log.for_each items
        (fun '(factor, value) => Log.debug (Log.AdditionalFactor factor value))
  end.

(** Lines 111-117. *)
Definition risk_level_of (final_score : float) : string :=
  if 71 <=? final_score then "High Risk"
  else if 41 <=? final_score then "Medium Risk"
  else "Low Risk".

(** [compute_risk_score] of [risk_calculator.py]. *)
Definition compute_risk_score
    (user_id company_name : string)
    (debt_to_equity net_profit negative_news_score late_payments_rate : float)
    (sector : string) (additional_factors : option PyFactors)
  : Log.Logged (float * string * list string) :=
  Log.info (Log.Computing company_name user_id) ;;;
  let explanations : list string := [] in
  let '(debt_factor, explanations) :=
    calculate_debt_to_equity_factor debt_to_equity explanations in
  let '(profit_factor, explanations) :=
    calculate_net_profit_factor net_profit explanations in
  let '(news_factor, explanations) :=
    calculate_negative_news_factor negative_news_score explanations in
  let '(payments_factor, explanations) :=
    calculate_late_payments_factor late_payments_rate explanations in
  let base_score :=
    (weight "debt_to_equity" * debt_factor +
     weight "net_profit" * profit_factor +
     weight "negative_news" * news_factor +
     weight "late_payments" * payments_factor) / sum_values WEIGHTS in
  let sector_key := PyStr.lower sector in
  let sector_multiplier :=
    dict_get SECTOR_ADJUSTMENTS sector_key
             (dict_get SECTOR_ADJUSTMENTS "general" 1.0) in
  let explanations :=
    explanations ++ [sector_explanation sector sector_multiplier] in
  let final_score := base_score * sector_multiplier * 100 in
  final_score <-
    (if 100 <? final_score then
       Log.debug (Log.Capped 100.0) ;;; Log.ret 100.0
     else Log.ret final_score) ;;
  process_additional_factors additional_factors ;;;
  let risk_level := risk_level_of final_score in
  Log.info (Log.Completed company_name final_score risk_level) ;;;
  Log.ret (final_score, risk_level, explanations).

Definition restructuring_recommendation : string :=
  "Consider external financial expertise/restructuring".

Definition low_risk_recommendations : list string :=
  ["Maintain current financial practices";
   "Annual risk reassessment recommended"].

(** [get_risk_recommendations] *)
Definition get_risk_recommendations
    (risk_level : string) (score : float) (sector : string) : list string :=
  let recommendations : list string := [] in
  if String.eqb risk_level "High Risk" then
    let recommendations :=
      recommendations ++
        ["Conduct immediate comprehensive financial review";
         "Develop debt reduction strategy";
         "Implement stricter accounts receivable policies"] in
    let recommendations :=
      if PyStr.mem (PyStr.lower sector) ["retail"; "manufacturing"] then
        recommendations ++
          ["Review inventory management to improve cash flow"]
      else recommendations in
    if 85 <? score then recommendations ++ [restructuring_recommendation]
    else recommendations
  else if String.eqb risk_level "Medium Risk" then
    let recommendations :=
      recommendations ++
        ["Quarterly financial health monitoring recommended";
         "Develop action plan for identified risk areas"] in
    if PyStr.mem (PyStr.lower sector) ["technology"; "finance"] then
      recommendations ++
        ["Evaluate competitive positioning in volatile market"]
    else recommendations
  else
    recommendations ++ low_risk_recommendations.

(** The messages of the trace are kept unrendered; the interpreter renders
    them before it logs.  The one rendering that can fail is that of an
    additional factor's value (line 108): the loop then raises [ValueError]
    and the call returns nothing. *)
Definition raises (additional_factors : option PyFactors) : bool :=
  match additional_factors with
  | None => false
  | Some items => negb (forallb (fun item => renders (snd item)) items)
  end.

(** The outcome of a call of [compute_risk_score]. *)
Definition outcome
    (user_id company_name : string)
    (debt_to_equity net_profit negative_news_score late_payments_rate : float)
    (sector : string) (additional_factors : option PyFactors)
  : Outcome (float * string * list string) :=
  if raises additional_factors then Raised ValueError
  else Returned
         (Log.value
            (compute_risk_score user_id company_name debt_to_equity
               net_profit negative_news_score late_payments_rate sector
               additional_factors)).

End RiskCalculator.

(** ** Unicode strings

    The text of a [Text] column and the strings the [json] module reads and
    writes are sequences of code points, surrogates included. *)

Module Unicode.

Local Open Scope N_scope.

(** A sequence of code points. *)
Definition str : Type := list N.

(** The code points of a string of characters below 256. *)
Definition of_string (s : string) : str :=
  map N_of_ascii (list_ascii_of_string s).

(** [bool(s)] *)
Definition truthy (s : str) : bool :=
  match s with
  | [] => false
  | _ :: _ => true
  end.

Definition is_code_point (c : N) : bool := c <=? 0x10FFFF.

Definition is_high_surrogate (c : N) : bool :=
  (0xD800 <=? c) && (c <=? 0xDBFF).

Definition is_low_surrogate (c : N) : bool :=
  (0xDC00 <=? c) && (c <=? 0xDFFF).

(** A Python [str]: every element is a code point.  Surrogates are code
    points like the others. *)
Definition is_str (s : str) : bool := forallb is_code_point s.

(** Whether a high surrogate is immediately followed by a low one. *)
Fixpoint has_surrogate_pair (s : str) : bool :=
  match s with
  | [] => false
  | a :: rest =>
      match rest with
      | [] => false
      | b :: _ =>
          (is_high_surrogate a && is_low_surrogate b) || has_surrogate_pair rest
      end
  end.
End Unicode.

(** ** The [json] module, as [models.py] uses it

    [json.dumps] is applied to a list of strings and [json.loads] to the text
    it produced.  [dumps] follows the default encoder ([ensure_ascii=True],
    separators [", "]); [loads] follows the decoder for the documents that are
    arrays of strings, and is [None] on every other text, on which
    [json.loads] raises or returns a value of another shape. *)

Module Json.

Local Open Scope N_scope.
Import Unicode.

Definition quote : N := 34.
Definition backslash : N := 92.
(** The lower-case hexadecimal digit of [d < 16]. *)
Definition hex_digit (d : N) : N := if d <? 10 then 48 + d else 87 + d.

(** ['{0:04x}'.format(n)] for [n < 65536]. *)
Definition hex4 (n : N) : str :=
  [hex_digit ((n / 4096) mod 16); hex_digit ((n / 256) mod 16);
   hex_digit ((n / 16) mod 16); hex_digit (n mod 16)].

(** [\uXXXX] *)
Definition unicode_escape (unit : N) : str := backslash :: 117 :: hex4 unit.

(** [' '..'~'] *)
Definition printable (c : N) : bool := (32 <=? c) && (c <=? 126).

(** The replacement of one code point in [py_encode_basestring_ascii]: the
    short escapes, the printable characters as they are, [\uXXXX] below
    U+10000 and a surrogate pair of two escapes from there on (the
    encoder's shifts and masks, written as a quotient and a remainder). *)
Definition escape_char (c : N) : str :=
  if c =? quote then [backslash; quote]
  else if c =? backslash then [backslash; backslash]
  else if c =? 8 then [backslash; 98]
  else if c =? 12 then [backslash; 102]
  else if c =? 10 then [backslash; 110]
  else if c =? 13 then [backslash; 114]
  else if c =? 9 then [backslash; 116]
  else if printable c then [c]
  else if c <? 0x10000 then unicode_escape c
  else
    let v := c - 0x10000 in
    unicode_escape (0xD800 + (v / 1024) mod 1024)
    ++ unicode_escape (0xDC00 + v mod 1024).

Fixpoint escape (s : str) : str :=
  match s with
  | [] => []
  | c :: rest => escape_char c ++ escape rest
  end.

(** [json.dumps(s)] for a string [s]. *)
Definition encode_string (s : str) : str := quote :: escape s ++ [quote].

(** [sep.join(l)] *)
Fixpoint join (sep : str) (l : list str) : str :=
  match l with
  | [] => []
  | x :: rest =>
      match rest with
      | [] => x
      | _ :: _ => x ++ sep ++ join sep rest
      end
  end.

(** [json.dumps(value)] for a list of strings [value]: the elements between
    brackets (91, 93), separated by a comma and a space (44, 32). *)
Definition dumps (value : list str) : str :=
  [91] ++ join [44; 32] (map encode_string value) ++ [93].


(** The decoder ([scanstring] inside [JSONArray]), one character at a time. *)
Inductive State : Type :=
| Start                     (* before the opening bracket *)
| Opened                    (* after it: a string or the closing bracket *)
| InString (acc : str)      (* inside a string literal *)
| Escaped (acc : str)       (* after a backslash *)
| Hex (digits : nat) (code : N) (acc : str)
                            (* inside the digits of a [\uXXXX] escape *)
| AfterHigh (high : N) (acc : str)
                            (* after the escape of a high surrogate *)
| AfterHighBackslash (high : N) (acc : str)
                            (* and after the backslash that follows it *)
| HexLow (digits : nat) (code : N) (high : N) (acc : str)
                            (* inside the digits of the escape that follows it *)
| AfterValue                (* after a string: a comma or the closing bracket *)
| AfterComma                (* after a comma: a string *)
| Closed.                   (* after the closing bracket *)


(** [WHITESPACE_STR = ' \t\n\r'] *)
Definition whitespace (c : N) : bool :=
  (c =? 32) || (c =? 9) || (c =? 10) || (c =? 13).

Definition hex_value (c : N) : option N :=
  if (48 <=? c) && (c <=? 57) then Some (c - 48)
  else if (97 <=? c) && (c <=? 102) then Some (c - 87)
  else if (65 <=? c) && (c <=? 70) then Some (c - 55)
  else None.

(** [BACKSLASH] of the decoder. *)
Definition unescape (c : N) : option N :=
  if c =? 34 then Some 34
  else if c =? 92 then Some 92
  else if c =? 47 then Some 47
  else if c =? 98 then Some 8
  else if c =? 102 then Some 12
  else if c =? 110 then Some 10
  else if c =? 114 then Some 13
  else if c =? 116 then Some 9
  else None.

(** [0x10000 + (((high - 0xd800) << 10) | (low - 0xdc00))] *)
Definition join_surrogates (high low : N) : N :=
  0x10000 + ((high - 0xD800) * 1024 + (low - 0xDC00)).

(** After a [\uXXXX] escape: a high surrogate waits for what follows, any
    other code point is taken as it is. *)
Definition end_of_escape (unit : N) (acc : str) : State :=
  if is_high_surrogate unit then AfterHigh unit acc
  else InString (acc ++ [unit]).

Definition step_in_string (acc : str) (items : list str) (c : N)
  : option (State * list str) :=
  if c =? quote then Some (AfterValue, items ++ [acc])
  else if c =? backslash then Some (Escaped acc, items)
  else if c <? 32 then None
  else Some (InString (acc ++ [c]), items).

Definition step_escaped (acc : str) (items : list str) (c : N)
  : option (State * list str) :=
  if c =? 117 then Some (Hex 4 0 acc, items)
  else
    match unescape c with
    | Some d => Some (InString (acc ++ [d]), items)
    | None => None
    end.

(** A high surrogate followed by the escape of a low surrogate is joined
    with it into one code point; followed by anything else it stands for
    itself, and what follows is read afresh. *)
Definition step (st : State) (items : list str) (c : N)
  : option (State * list str) :=
  match st with
  | Start =>
      if whitespace c then Some (Start, items)
      else if c =? 91 then Some (Opened, items)
      else None
  | Opened =>
      if whitespace c then Some (Opened, items)
      else if c =? 93 then Some (Closed, items)
      else if c =? quote then Some (InString [], items)
      else None
  | InString acc => step_in_string acc items c
  | Escaped acc => step_escaped acc items c
  | Hex digits code acc =>
      match hex_value c with
      | None => None
      | Some d =>
          let code := 16 * code + d in
          match digits with
          | 0%nat => None
          | 1%nat => Some (end_of_escape code acc, items)
          | S digits => Some (Hex digits code acc, items)
          end
      end
  | AfterHigh high acc =>
      if c =? backslash then Some (AfterHighBackslash high acc, items)
      else step_in_string (acc ++ [high]) items c
  | AfterHighBackslash high acc =>
      if c =? 117 then Some (HexLow 4 0 high acc, items)
      else step_escaped (acc ++ [high]) items c
  | HexLow digits code high acc =>
      match hex_value c with
      | None => None
      | Some d =>
          let code := 16 * code + d in
          match digits with
          | 0%nat => None
          | 1%nat =>
              if is_low_surrogate code
              then Some (InString (acc ++ [join_surrogates high code]), items)
              else Some (end_of_escape code (acc ++ [high]), items)
          | S digits => Some (HexLow digits code high acc, items)
          end
      end
  | AfterValue =>
      if whitespace c then Some (AfterValue, items)
      else if c =? 44 then Some (AfterComma, items)
      else if c =? 93 then Some (Closed, items)
      else None
  | AfterComma =>
      if whitespace c then Some (AfterComma, items)
      else if c =? quote then Some (InString [], items)
      else None
  | Closed => if whitespace c then Some (Closed, items) else None
  end.

Fixpoint feed (st : State) (items : list str) (s : str)
  : option (State * list str) :=
  match s with
  | [] => Some (st, items)
  | c :: rest =>
      match step st items c with
      | Some (st', items') => feed st' items' rest
      | None => None
      end
  end.

(** [json.loads(s)] *)
Definition loads (s : str) : option (list str) :=
  match feed Start [] s with
  | Some (Closed, items) => Some items
  | _ => None
  end.

End Json.

(** ** [app/models.py] *)

Module Models.

(** A [RiskEvaluation] object.  Every column attribute is [None] until it is
    assigned ([id] and [created_at] are assigned by the store at flush). *)
Record RiskEvaluation : Type := mkRiskEvaluation {
  id : option Z;
  user_id : option string;
  company_name : option string;
  sector : option string;
  debt_to_equity : option float;
  net_profit : option float;
  negative_news_score : option float;
  late_payments_rate : option float;
  risk_score : option float;
  recommendation : option string;
  explanations_json : option Unicode.str;
  created_at : option Z
}.

(** [RiskEvaluation()]: no attribute assigned. *)
Definition new : RiskEvaluation :=
  mkRiskEvaluation None None None None None None None None None None None None.

(** The [explanations] getter; [None] when [json.loads] raises or gives
    something else than a list of strings. *)
Definition explanations (self : RiskEvaluation)
  : option (list Unicode.str) :=
  match explanations_json self with
  | Some text => if Unicode.truthy text then Json.loads text else Some []
  | None => Some []
  end.

(** The [explanations] setter. *)
Definition set_explanations (self : RiskEvaluation)
    (value : list Unicode.str) : RiskEvaluation :=
  mkRiskEvaluation
    (id self) (user_id self) (company_name self) (sector self)
    (debt_to_equity self) (net_profit self) (negative_news_score self)
    (late_payments_rate self) (risk_score self) (recommendation self)
    (Some (Json.dumps value)) (created_at self).

End Models.

(** ** The record store behind [db : Session]

    A session holds the objects added to it and not yet flushed ([pending])
    and the ones it has flushed ([persistent]); an object is named by its
    position in [persistent ++ pending].  [commit] writes the pending objects
    to the table with fresh consecutive ids and the store's time, or raises
    when the store cannot be written. *)

Module Database.

Import Models.

Record Session : Type := mkSession {
  table : list RiskEvaluation;
  next_id : Z;
  clock : Z;
  writable : bool;
  persistent : list RiskEvaluation;
  pending : list RiskEvaluation
}.

Definition Handle : Type := nat.

(** [db.add(obj)] *)
Definition add (db : Session) (obj : RiskEvaluation) : Session * Handle :=
  (mkSession (table db) (next_id db) (clock db) (writable db)
             (persistent db) (pending db ++ [obj]),
   (List.length (persistent db) + List.length (pending db))%nat).

(** A [Float] column of the default store (SQLite): NaN is stored as NULL,
    and a zero is read back as [0.0] whatever its sign; every other number,
    the infinities included, is read back as it was written. *)
Definition stored_float (x : option float) : option float :=
  match x with
  | None => None
  | Some f =>
      if PrimFloat.is_nan f then None
      else if (f =? 0)%float then Some 0%float
      else Some f
  end.

(** The row an object becomes when it is written. *)
Definition inserted (key : Z) (time : Z) (obj : RiskEvaluation)
  : RiskEvaluation :=
  mkRiskEvaluation
    (Some key) (user_id obj) (company_name obj) (sector obj)
    (stored_float (debt_to_equity obj)) (stored_float (net_profit obj))
    (stored_float (negative_news_score obj))
    (stored_float (late_payments_rate obj))
    (stored_float (risk_score obj)) (recommendation obj)
    (explanations_json obj) (Some time).

Fixpoint insert_all (key : Z) (time : Z) (objs : list RiskEvaluation)
  : list RiskEvaluation :=
  match objs with
  | [] => []
  | obj :: rest => inserted key time obj :: insert_all (key + 1) time rest
  end.

(** [db.commit()]; [None] when it raises. *)
Definition commit (db : Session) : option Session :=
  if writable db then
    let rows := insert_all (next_id db) (clock db) (pending db) in
    Some (mkSession (table db ++ rows)
                    (next_id db + Z.of_nat (List.length rows))
                    (clock db) (writable db)
                    (persistent db ++ rows) [])
  else None.

(** [db.refresh(obj)]: the stored state of a persistent object; [None] when
    the object is not persistent (it raises). *)
Definition refresh (db : Session) (h : Handle) : option RiskEvaluation :=
  nth_error (persistent db) h.

(** [db.rollback()] *)
Definition rollback (db : Session) : Session :=
  mkSession (table db) (next_id db) (clock db) (writable db)
            (persistent db) [].

(** [RiskEvaluation.id == evaluation_id] as the store evaluates it: a NULL
    column matches nothing. *)
Definition id_is (evaluation_id : Z) (row : RiskEvaluation) : bool :=
  match id row with
  | Some key => Z.eqb key evaluation_id
  | None => false
  end.

(** [RiskEvaluation.company_name == company_name]: exact, case-sensitive. *)
Definition company_name_is (name : string) (row : RiskEvaluation) : bool :=
  match company_name row with
  | Some stored => String.eqb stored name
  | None => false
  end.

(** [db.query(RiskEvaluation).filter(RiskEvaluation.id == evaluation_id).first()] *)
Definition first_by_id (db : Session) (evaluation_id : Z)
  : option RiskEvaluation :=
  find (id_is evaluation_id) (table db).

(** [db.query(RiskEvaluation).filter(RiskEvaluation.company_name == name).all()] *)
Definition all_by_company_name (db : Session) (name : string)
  : list RiskEvaluation :=
  filter (company_name_is name) (table db).

End Database.

(** ** [app/routes.py] *)

Module Routes.

Record RiskRequest : Type := mkRiskRequest {
  user_id : string;
  companyName : string;
  debtToEquity : float;
  netProfit : float;
  negativeNewsScore : float;
  latePaymentsRate : float;
  sector : string;
  additionalFactors : PyFactors
}.

Record RiskResponse : Type := mkRiskResponse {
  score : float;
  explanations : list string;
  recommendation : string;
  recommendations : list string;
  evaluation_id : option Z
}.

(** What a handler hands back: the body of a 200 response, or an
    [HTTPException]. *)
Inductive Reply (A : Type) : Type :=
| Ok200 (body : A)
| HTTPException (status_code : Z) (detail : string).

Arguments Ok200 {A} body.
Arguments HTTPException {A} status_code detail.

(** Lines 88-117: the inner [try]: build the row, add, commit, refresh, read
    the id; on any exception log, roll back and carry on without an id. *)
Definition store_evaluation (req : RiskRequest) (score : float)
    (risk_level : string) (explanations : list string) (db : Database.Session)
  : Log.Logged (option Z * Database.Session) :=
  let db_evaluation :=
    Models.set_explanations
      (Models.mkRiskEvaluation None (Some (user_id req)) (Some (companyName req))
         (Some (sector req)) (Some (debtToEquity req))
         (Some (netProfit req)) (Some (negativeNewsScore req))
         (Some (latePaymentsRate req)) (Some score) (Some risk_level)
         None None)
      (map Unicode.of_string explanations) in
  let '(db1, h) := Database.add db db_evaluation in
  match Database.commit db1 with
  | None =>
      Log.bind (Log.error (Log.StoreError "commit"))
        (fun _ => Log.ret (None, Database.rollback db1))
  | Some db2 =>
      match Database.refresh db2 h with
      | None =>
          Log.bind (Log.error (Log.StoreError "refresh"))
            (fun _ => Log.ret (None, Database.rollback db2))
      | Some row =>
          let evaluation_id := Models.id row in
          Log.bind (Log.info (Log.Stored evaluation_id))
            (fun _ => Log.ret (evaluation_id, db2))
      end
  end.

(** [evaluate_risk]: the handler of [POST /api/evaluate].  The scoring engine
    it calls is the one line 12 imports, [risk_calculator.compute_risk_score].
    On the values a request body can carry neither that function nor
    [get_risk_recommendations] raises, so the outer [except] branch (the 500
    reply) is never taken. *)
Definition evaluate_risk (req : RiskRequest) (db : Database.Session)
  : Log.Logged (Reply RiskResponse * Database.Session) :=
  Log.bind (Log.info (Log.Requested (companyName req))) (fun _ =>
  Log.bind
    (RiskCalculator.compute_risk_score
       (user_id req) (companyName req) (debtToEquity req) (netProfit req)
       (negativeNewsScore req) (latePaymentsRate req) (sector req)
       (Some (additionalFactors req)))
    (fun '(score, risk_level, explanations) =>
  let recommendations :=
    RiskCalculator.get_risk_recommendations risk_level score (sector req) in
  Log.bind (store_evaluation req score risk_level explanations db)
    (fun '(evaluation_id, db') =>
  Log.ret
    (Ok200 (mkRiskResponse score explanations risk_level recommendations
                           evaluation_id),
     db')))).

(** The (score, riskLevel, explanations) triple of a reply. *)
Definition assessment (r : Reply RiskResponse)
  : option (float * string * list string) :=
  match r with
  | Ok200 body => Some (score body, recommendation body, explanations body)
  | HTTPException _ _ => None
  end.

(** The recommendations of a reply. *)
Definition reply_recommendations (r : Reply RiskResponse) : list string :=
  match r with
  | Ok200 body => recommendations body
  | HTTPException _ _ => []
  end.

(** The engine call of lines 72-81, on the fields of the request. *)
Definition engine_inputs {R : Type}
    (engine : string -> string -> float -> float -> float -> float ->
              string -> option PyFactors -> R)
    (req : RiskRequest) : R :=
  engine (user_id req) (companyName req) (debtToEquity req)
         (netProfit req) (negativeNewsScore req) (latePaymentsRate req)
         (sector req) (Some (additionalFactors req)).

(** [get_risk_recommendations] on the attributes of a stored row, any of
    which may be [None]: the comparisons of [risk_level] with the two level
    names are then false, while [sector.lower()] and [score > 85] raise
    ([None] here) in the branches that evaluate them.  The Medium Risk
    branch never reads [score], so the value passed for it there is
    immaterial. *)
Definition recommendations_of_row (row : Models.RiskEvaluation)
  : option (list string) :=
  match Models.recommendation row with
  | None => Some ([] ++ RiskCalculator.low_risk_recommendations)
  | Some risk_level =>
      if String.eqb risk_level "High Risk" then
        match Models.sector row, Models.risk_score row with
        | Some sector, Some score =>
            Some (RiskCalculator.get_risk_recommendations
                    risk_level score sector)
        | _, _ => None
        end
      else if String.eqb risk_level "Medium Risk" then
        match Models.sector row with
        | Some sector =>
            Some (RiskCalculator.get_risk_recommendations
                    risk_level 0%float sector)
        | None => None
        end
      else Some ([] ++ RiskCalculator.low_risk_recommendations)
  end.

(** The body of [GET /api/evaluations/{id}]: the columns of the row and the
    recommendations regenerated for it. *)
Record EvaluationDetail : Type := mkEvaluationDetail {
  detail_row : Models.RiskEvaluation;
  detail_recommendations : list string
}.

(** The framework renders the returned dict with
    [json.dumps(..., allow_nan=False)], which raises for a float that is
    infinite or NaN. *)
Definition float_is_json (x : option float) : bool :=
  match x with
  | None => true
  | Some f => PrimFloat.is_finite f
  end.

Definition row_is_json (row : Models.RiskEvaluation) : bool :=
  float_is_json (Models.debt_to_equity row)
  && float_is_json (Models.net_profit row)
  && float_is_json (Models.negative_news_score row)
  && float_is_json (Models.late_payments_rate row)
  && float_is_json (Models.risk_score row).

(** [get_evaluation]: 404 when no row has the id; an exception of the
    recommendation step, or of the rendering of the reply, is not caught and
    surfaces as a 500. *)
Definition get_evaluation (evaluation_id : Z) (db : Database.Session)
  : Reply EvaluationDetail :=
  match Database.first_by_id db evaluation_id with
  | None => HTTPException 404 "Evaluation not found"
  | Some evaluation =>
      match recommendations_of_row evaluation with
      | Some recommendations =>
          if row_is_json evaluation then
            Ok200 (mkEvaluationDetail evaluation recommendations)
          else HTTPException 500 "Internal Server Error"
      | None => HTTPException 500 "Internal Server Error"
      end
  end.

(** [get_company_evaluations] *)
Definition get_company_evaluations (company_name : string)
    (db : Database.Session) : list Models.RiskEvaluation :=
  Database.all_by_company_name db company_name.

End Routes.

(** ** The additive rules as the specification lists them

    Each rule is a trigger, the amount it adds and the explanation it
    appends; the score is the sum of the amounts of the triggered rules, in
    rule order, capped at [1.0]. *)

Module AdditiveSpec.

Local Open Scope float_scope.

Record Rule : Type := mkRule {
  triggers : bool;
  amount : float;
  explanation : string
}.

Definition debt_rule (debtToEquity : float) : Rule :=
  mkRule (2.0 <? debtToEquity) 0.30 "High debt-to-equity ratio".

Definition profit_rule (netProfit : float) : Rule :=
  mkRule (netProfit <? 0) 0.20 "Negative profitability".

Definition news_rule (negativeNewsScore : float) : Rule :=
  mkRule (0.5 <? negativeNewsScore) 0.20 "Significant negative news".

Definition payments_rule (latePaymentsRate : float) : Rule :=
  mkRule (0.1 <? latePaymentsRate) 0.15 "High late payments rate".

Definition sector_rule (sector : string) : Rule :=
  mkRule (PyStr.mem (PyStr.lower sector) ["oil"; "gas"; "energy"]) 0.10
         "High-volatility sector".

Definition rules (debtToEquity netProfit negativeNewsScore latePaymentsRate
                  : float) (sector : string) : list Rule :=
  [ debt_rule debtToEquity; profit_rule netProfit;
    news_rule negativeNewsScore; payments_rule latePaymentsRate;
    sector_rule sector ].

Definition triggered (rs : list Rule) : list Rule := filter triggers rs.

Definition total (rs : list Rule) : float :=
  fold_left (fun acc r => acc + amount r) rs 0.0.

Definition clamp (x : float) : float := if 1.0 <? x then 1.0 else x.

Definition score (debtToEquity netProfit negativeNewsScore latePaymentsRate
                  : float) (sector : string) : float :=
  clamp (total (triggered (rules debtToEquity netProfit negativeNewsScore
                                 latePaymentsRate sector))).

Definition explanations (debtToEquity netProfit negativeNewsScore
                         latePaymentsRate : float) (sector : string)
  : list string :=
  map explanation (triggered (rules debtToEquity netProfit negativeNewsScore
                                    latePaymentsRate sector)).

End AdditiveSpec.

(** ** What the evaluate route writes, and what a sound store looks like *)

Module Stored.

(** The object [evaluate_risk] builds at lines 89-100. *)
Definition row_of (req : Routes.RiskRequest) (score : float)
    (risk_level : string) (explanations : list string)
  : Models.RiskEvaluation :=
  Models.set_explanations
    (Models.mkRiskEvaluation None (Some (Routes.user_id req))
       (Some (Routes.companyName req)) (Some (Routes.sector req))
       (Some (Routes.debtToEquity req)) (Some (Routes.netProfit req))
       (Some (Routes.negativeNewsScore req))
       (Some (Routes.latePaymentsRate req)) (Some score) (Some risk_level)
       None None)
    (map Unicode.of_string explanations).

(** Every row carries an id, and the id is below [bound]. *)
Definition ids_below (bound : Z) (rows : list Models.RiskEvaluation) : Prop :=
  Forall (fun row => exists key, Models.id row = Some key /\ (key < bound)%Z)
         rows.

(** The table of a store the code has filled: the ids are pairwise distinct
    and all below the next id to hand out. *)
Definition consistent (db : Database.Session) : Prop :=
  ids_below (Database.next_id db) (Database.table db)
  /\ NoDup (map Models.id (Database.table db)).

(** The same request with other [additionalFactors]. *)
Definition with_factors (req : Routes.RiskRequest) (factors : PyFactors)
  : Routes.RiskRequest :=
  Routes.mkRiskRequest (Routes.user_id req) (Routes.companyName req)
    (Routes.debtToEquity req) (Routes.netProfit req)
    (Routes.negativeNewsScore req) (Routes.latePaymentsRate req)
    (Routes.sector req) factors.

End Stored.

(** ** The weighted engine, factor by factor

    The factor and the explanation each helper yields, the pure arithmetic of
    lines 78-103, and the finitely many values the factors and the sector
    multiplier take. *)

Module Weighted.

Local Open Scope float_scope.

Definition debt_factor (debt_to_equity : float) : float :=
  fst (RiskCalculator.calculate_debt_to_equity_factor debt_to_equity []).

Definition profit_factor (net_profit : float) : float :=
  fst (RiskCalculator.calculate_net_profit_factor net_profit []).

Definition news_factor (negative_news_score : float) : float :=
  fst (RiskCalculator.calculate_negative_news_factor negative_news_score []).

Definition payments_factor (late_payments_rate : float) : float :=
  fst (RiskCalculator.calculate_late_payments_factor late_payments_rate []).

Definition debt_text (debt_to_equity : float) : string :=
  hd "" (snd (RiskCalculator.calculate_debt_to_equity_factor
                debt_to_equity [])).

Definition profit_text (net_profit : float) : string :=
  hd "" (snd (RiskCalculator.calculate_net_profit_factor net_profit [])).

Definition news_text (negative_news_score : float) : string :=
  hd "" (snd (RiskCalculator.calculate_negative_news_factor
                negative_news_score [])).

Definition payments_text (late_payments_rate : float) : string :=
  hd "" (snd (RiskCalculator.calculate_late_payments_factor
                late_payments_rate [])).

(** Lines 87-88. *)
Definition sector_multiplier (sector : string) : float :=
  RiskCalculator.dict_get RiskCalculator.SECTOR_ADJUSTMENTS
    (PyStr.lower sector)
    (RiskCalculator.dict_get RiskCalculator.SECTOR_ADJUSTMENTS "general" 1.0).

(** Lines 79-84. *)
Definition base_score (f1 f2 f3 f4 : float) : float :=
  (RiskCalculator.weight "debt_to_equity" * f1 +
   RiskCalculator.weight "net_profit" * f2 +
   RiskCalculator.weight "negative_news" * f3 +
   RiskCalculator.weight "late_payments" * f4)
  / RiskCalculator.sum_values RiskCalculator.WEIGHTS.

(** Lines 98-103. *)
Definition final_score (f1 f2 f3 f4 multiplier : float) : float :=
  let final := base_score f1 f2 f3 f4 * multiplier * 100 in
  if 100 <? final then 100.0 else final.

Definition debt_factors : list float := [0.2; 0.5; 0.7; 1.0].
Definition profit_factors : list float := [0.1; 0.3; 0.5; 0.7; 1.0].
Definition news_factors : list float := [0.2; 0.5; 0.7; 1.0].
Definition payments_factors : list float := [0.1; 0.4; 0.7; 1.0].

(** The distinct values of [SECTOR_ADJUSTMENTS]. *)
Definition multipliers : list float :=
  [1.0; 0.9; 1.2; 1.1; 1.05; 1.3; 1.15; 0.95; 0.85].

(** A test on the four factors, run over every combination of bands. *)
Definition for_all_factors (test : float -> float -> float -> float -> bool)
  : bool :=
  forallb (fun f1 =>
    forallb (fun f2 =>
      forallb (fun f3 =>
        forallb (fun f4 => test f1 f2 f3 f4) payments_factors)
      news_factors)
    profit_factors)
  debt_factors.

(** A test on the factors and the multiplier, run over every combination. *)
Definition for_all_inputs
    (test : float -> float -> float -> float -> float -> bool) : bool :=
  for_all_factors (fun f1 f2 f3 f4 =>
    forallb (fun m => test f1 f2 f3 f4 m) multipliers).

(** The tests run over the bands in the properties below. *)
Definition score_in_range (f1 f2 f3 f4 m : float) : bool :=
  let score := final_score f1 f2 f3 f4 m in
  (12.75 <=? score) && (score <=? 100).

Definition level_matches_band (f1 f2 f3 f4 m : float) : bool :=
  let score := final_score f1 f2 f3 f4 m in
  let level := RiskCalculator.risk_level_of score in
  Bool.eqb (71 <=? score) (String.eqb level "High Risk")
  && Bool.eqb ((41 <=? score) && (score <? 71))
              (String.eqb level "Medium Risk")
  && Bool.eqb (score <? 41) (String.eqb level "Low Risk").

Definition multiplier_moves_score (f1 f2 f3 f4 m : float) : bool :=
  let score := final_score f1 f2 f3 f4 m in
  let general := final_score f1 f2 f3 f4 1.0 in
  implb (1.0 <? m) (general <=? score)
  && implb (m <? 1.0) (score <=? general)
  && implb (negb (1.0 <? m) && negb (m <? 1.0))
           ((score <=? general) && (general <=? score)).

Definition worse_bands_score_higher (f1 f2 f3 f4 : float) : bool :=
  for_all_factors (fun g1 g2 g3 g4 =>
    if (f1 <=? g1) && (f2 <=? g2) && (f3 <=? g3) && (f4 <=? g4) then
      forallb (fun m => final_score f1 f2 f3 f4 m
                        <=? final_score g1 g2 g3 g4 m) multipliers
    else true).

Definition score_is_stored (f1 f2 f3 f4 m : float) : bool :=
  let score := final_score f1 f2 f3 f4 m in
  negb (PrimFloat.is_nan score) && negb (score =? 0)
  && PrimFloat.is_finite score.

End Weighted.

(** ** The decoder inside a string literal *)

Module Decoding.
Import Unicode Json.
Local Open Scope N_scope.

(** The decoder inside a string literal: what it has read, and the high
    surrogate it may hold back for the next escape. *)
Definition Progress : Type := (str * option N)%type.

Definition state_of (p : Progress) : State :=
  match p with
  | (acc, None) => InString acc
  | (acc, Some high) => AfterHigh high acc
  end.

Definition content (p : Progress) : str :=
  match p with
  | (acc, None) => acc
  | (acc, Some high) => acc ++ [high]
  end.

(** One [\uXXXX] escape read. *)
Definition emit (p : Progress) (unit : N) : Progress :=
  match p with
  | (acc, None) =>
      if is_high_surrogate unit then (acc, Some unit)
      else (acc ++ [unit], None)
  | (acc, Some high) =>
      if is_low_surrogate unit then (acc ++ [join_surrogates high unit], None)
      else if is_high_surrogate unit then (acc ++ [high], Some unit)
      else (acc ++ [high; unit], None)
  end.

(** One code point of the encoded string read. *)
Definition push (p : Progress) (c : N) : Progress :=
  if is_high_surrogate c then (content p, Some c)
  else (content p ++ [c], None).

(** The held-back surrogate does not pair with the next code point. *)
Definition unpaired (p : Progress) (s : str) : bool :=
  match snd p, s with
  | Some _, c :: _ => negb (is_low_surrogate c)
  | _, _ => true
  end.

End Decoding.

(** ** Sample requests and stores *)

Module Samples.

Local Open Scope float_scope.

(** A store that accepts writes, and one that rejects them. *)
Definition db_up : Database.Session :=
  Database.mkSession [] 1 1000 true [] [].

Definition db_down : Database.Session :=
  Database.mkSession [] 1 1000 false [] [].

(** The request of [tests/test_api.py]. *)
Definition req_api : Routes.RiskRequest :=
  Routes.mkRiskRequest "test_user" "Test Corp" 2.5 (-1000) 0.8 0.2
                       "technology" [].

(** Every factor at its worst, in the oil sector. *)
Definition req_extreme : Routes.RiskRequest :=
  Routes.mkRiskRequest "test_user" "Extreme Risk Corp" 5.0 (-1000000) 1.0 0.5
                       "oil" [("countryRisk", PyFloat 0.9)].

End Samples.

(** * Properties *)

Section LoggedFacts.

Context {A B : Type}.

Lemma value_bind (m : Log.Logged A) (k : A -> Log.Logged B) :
  Log.value (Log.bind m k) = Log.value (k (Log.value m)).
Proof.
  unfold Log.value, Log.bind.
  destruct m as [a t1]; simpl.
  destruct (k a) as [b t2]; reflexivity.
Qed.

Lemma value_ret (a : A) : Log.value (Log.ret a) = a.
Proof. reflexivity. Qed.

End LoggedFacts.

(** What a computation logs before the next one has no effect on the value
    of the next one. *)
Lemma value_then {B : Type} (m : Log.Logged unit) (k : Log.Logged B) :
  Log.value (Log.bind m (fun _ => k)) = Log.value k.
Proof. exact (value_bind m (fun _ => k)). Qed.

(** ** The scenarios of the test suite *)

Section Scenarios.

Local Open Scope float_scope.

(** [tests/test_logic.py], high risk. *)
Example scenario_high_risk :
  Log.value (RiskScoring.compute_risk_score "test_user" "High Risk Corp"
               3.0 (-5000) 0.9 0.2 "general" None)
  = (0.85, "High Risk",
     ["High debt-to-equity ratio"; "Negative profitability";
      "Significant negative news"; "High late payments rate"]).
Proof. reflexivity. Qed.

(** [tests/test_logic.py], low risk. *)
Example scenario_low_risk :
  Log.value (RiskScoring.compute_risk_score "test_user" "Low Risk Corp"
               1.0 5000 0.1 0.05 "general" None)
  = (0.0, "Low Risk", []).
Proof. reflexivity. Qed.

(** [tests/test_logic.py], every rule triggered: the sum stays under the
    cap. *)
Example scenario_every_rule :
  Log.value (RiskScoring.compute_risk_score "test_user" "Extreme Risk Corp"
               5.0 (-10000) 1.0 0.5 "oil"
               (Some [("countryRisk", PyFloat 0.9)]))
  = (0.95, "High Risk",
     ["High debt-to-equity ratio"; "Negative profitability";
      "Significant negative news"; "High late payments rate";
      "High-volatility sector"]).
Proof. reflexivity. Qed.

(** The sector is compared case-insensitively. *)
Example scenario_sector_case :
  Log.value (RiskScoring.compute_risk_score "test_user" "Energy Corp"
               1.5 1000 0.3 0.0 "EnErGy" None)
  = (0.1, "Low Risk", ["High-volatility sector"]).
Proof. reflexivity. Qed.

(** [tests/test_api.py]: the request the API test posts, through the
    handler, against a store that accepts the write. *)
Example scenario_api :
  fst (Log.value (Routes.evaluate_risk Samples.req_api Samples.db_up))
  = Routes.Ok200
      (Routes.mkRiskResponse 76.0
         ["High debt-to-equity ratio increases financial risk";
          "Negative net profit shows concerning financial performance";
          "High negative news coverage suggests significant reputational risk";
          "Elevated late payments rate may indicate cash flow issues";
          "Technology sector has moderate baseline risk"]
         "High Risk"
         ["Conduct immediate comprehensive financial review";
          "Develop debt reduction strategy";
          "Implement stricter accounts receivable policies"]
         (Some 1%Z)).
Proof. reflexivity. Qed.

(** The encoder escapes quotes, backslashes, control characters and
    everything outside printable ASCII; a code point beyond U+FFFF becomes a
    surrogate pair. *)
Example scenario_dumps :
  Json.dumps [Unicode.of_string "a\b"; [10; 233; 0x1F600]%N]
  = (Unicode.of_string "[" ++ [Json.quote]
     ++ Unicode.of_string "a\\b" ++ [Json.quote]
     ++ Unicode.of_string ", " ++ [Json.quote]
     ++ Unicode.of_string "\n\u00e9\ud83d\ude00" ++ [Json.quote]
     ++ Unicode.of_string "]")%list.
Proof. reflexivity. Qed.

End Scenarios.

(** ** The additive engine *)

(** Splits on every trigger of the additive engine that occurs in the goal. *)
Ltac split_triggers :=
  repeat match goal with
         | |- context [PrimFloat.ltb ?a ?b] =>
             first [is_var a | is_var b]; destruct (PrimFloat.ltb a b)
         | |- context [PyStr.mem ?s ?l] =>
             destruct (PyStr.mem s l)
         end.

(** Two floats compare one way or the other: the order of binary64, from
    its specification. *)
Lemma compare_cont_swap (p q : positive) :
  Pos.compare_cont Eq q p = CompOpp (Pos.compare_cont Eq p q).
Proof. rewrite (Pos.compare_cont_antisym p q Eq). reflexivity. Qed.

Lemma SFcompare_swap (x y : SpecFloat.spec_float) :
  SpecFloat.SFcompare y x = option_map CompOpp (SpecFloat.SFcompare x y).
Proof.
  destruct x as [sx | sx | | sx mx ex], y as [sy | sy | | sy my ey];
    try destruct sx; try destruct sy; try reflexivity; simpl;
    rewrite (Z.compare_antisym ex ey), (compare_cont_swap mx my);
    destruct (ex ?= ey)%Z; simpl; try reflexivity.
Qed.

(** Among numbers, [not (x < y)] is [y <= x]. *)
Lemma not_ltb_is_leb (x y : float) :
  PrimFloat.is_nan x = false -> PrimFloat.is_nan y = false ->
  (x <? y)%float = false -> (y <=? x)%float = true.
Proof.
  unfold PrimFloat.is_nan.
  rewrite !FloatAxioms.eqb_spec, FloatAxioms.ltb_spec, FloatAxioms.leb_spec.
  unfold SpecFloat.SFeqb, SpecFloat.SFltb, SpecFloat.SFleb.
  rewrite (SFcompare_swap (Prim2SF x) (Prim2SF y)).
  destruct (SpecFloat.SFcompare (Prim2SF x) (Prim2SF x)) as [[ | | ] |] eqn:Hx;
    try discriminate.
  destruct (SpecFloat.SFcompare (Prim2SF y) (Prim2SF y)) as [[ | | ] |] eqn:Hy;
    try discriminate.
  intros _ _.
  destruct (SpecFloat.SFcompare (Prim2SF x) (Prim2SF y)) as [[ | | ] |] eqn:Hxy;
    simpl; try discriminate; try reflexivity.
  intros _. exfalso.
  destruct (Prim2SF x), (Prim2SF y); simpl in *; discriminate.
Qed.

(** The cap of lines 80-83 brings every number it is given to 1.0 or
    below. *)
Lemma cap_bounds (raw : float) :
  PrimFloat.is_nan raw = false ->
  (Log.value (RiskScoring.cap raw) <=? 1.0)%float = true.
Proof.
  intros Hnumber. unfold RiskScoring.cap.
  destruct (1 <? raw)%float eqn:Habove.
  - reflexivity.
  - apply not_ltb_is_leb; [reflexivity | exact Hnumber | exact Habove].
Qed.

Section Additive.

Local Open Scope float_scope.

Variables (user_id company_name : string).
Variables (debt_to_equity net_profit negative_news_score
           late_payments_rate : float).
Variable sector : string.
Variable additional_factors : option PyFactors.

Let result : float * string * list string :=
  Log.value (RiskScoring.compute_risk_score user_id company_name
               debt_to_equity net_profit negative_news_score
               late_payments_rate sector additional_factors).

(** The trace aside, [compute_risk_score] is the rule block, the cap and the
    level. *)
Lemma compute_risk_score_value :
  result =
  (let '(raw, explanations) :=
     Log.value (RiskScoring.apply_rules debt_to_equity net_profit
                  negative_news_score late_payments_rate sector) in
   let score := Log.value (RiskScoring.cap raw) in
   (score, RiskScoring.risk_level_of score, explanations)).
Proof.
  unfold result, RiskScoring.compute_risk_score.
  rewrite value_then, value_bind.
  destruct (Log.value (RiskScoring.apply_rules _ _ _ _ _)) as [raw ex].
  rewrite value_then, value_bind, value_then. reflexivity.
Qed.

(** C2: the score is the sum of the amounts of exactly the triggered rules
    (0.30 for debtToEquity > 2.0, 0.20 for netProfit < 0, 0.20 for
    negativeNewsScore > 0.5, 0.15 for latePaymentsRate > 0.1, 0.10 for a
    sector that lower-cases to oil, gas or energy), capped at 1.0; the
    explanations are the triggered rules' strings in rule order; the
    comparisons are strict, so debtToEquity = 2.0 and netProfit = 0 trigger
    nothing. *)
Theorem additive_score_is_sum_of_triggered_rules :
  fst (fst result)
    = AdditiveSpec.score debt_to_equity net_profit negative_news_score
                         late_payments_rate sector
  /\ snd result
    = AdditiveSpec.explanations debt_to_equity net_profit negative_news_score
                                late_payments_rate sector
  /\ AdditiveSpec.triggers (AdditiveSpec.debt_rule 2.0) = false
  /\ AdditiveSpec.triggers (AdditiveSpec.profit_rule 0) = false.
Proof.
  rewrite compute_risk_score_value.
  unfold AdditiveSpec.score, AdditiveSpec.explanations, AdditiveSpec.rules,
    AdditiveSpec.debt_rule, AdditiveSpec.profit_rule, AdditiveSpec.news_rule,
    AdditiveSpec.payments_rule, AdditiveSpec.sector_rule,
    RiskScoring.apply_rules.
  split_triggers; repeat split; reflexivity.
Qed.

(** C3: whatever the numbers and strings of the input, the engine returns a
    score with 0.0 <= score <= 1.0; no number and no string is rejected (the
    call returns, and what it returns does not depend on the additional
    factors); the score is the raw sum passed through the cap of step 8, and
    that cap by itself bounds whatever sum it is given by 1.0. *)
Theorem additive_score_in_unit_interval :
  let score := fst (fst result) in
  (0.0 <=? score) = true
  /\ (score <=? 1.0) = true
  /\ score = Log.value
               (RiskScoring.cap
                  (RiskScoring.raw_score debt_to_equity net_profit
                     negative_news_score late_payments_rate sector))
  /\ (forall raw : float,
        PrimFloat.is_nan raw = false ->
        (Log.value (RiskScoring.cap raw) <=? 1.0) = true)
  /\ RiskScoring.outcome user_id company_name debt_to_equity net_profit
       negative_news_score late_payments_rate sector None
     = Returned result.
Proof.
  assert (Houtcome :
    RiskScoring.outcome user_id company_name debt_to_equity net_profit
      negative_news_score late_payments_rate sector None
    = Returned result).
  { unfold RiskScoring.outcome. cbn [RiskScoring.raises]. f_equal.
    rewrite compute_risk_score_value.
    unfold RiskScoring.compute_risk_score.
    rewrite value_then, value_bind.
    destruct (Log.value (RiskScoring.apply_rules _ _ _ _ _)) as [raw ex].
    rewrite value_then, value_bind, value_then. reflexivity. }
  split; [| split; [| split; [| split; [exact cap_bounds | exact Houtcome]]]];
    rewrite compute_risk_score_value;
    unfold RiskScoring.raw_score, RiskScoring.apply_rules;
    split_triggers; reflexivity.
Qed.

(** C4: the risk level is a function of the returned score alone, and the
    three bands are exhaustive and exclusive: score >= 0.7 exactly when the
    level is High Risk, 0.4 <= score < 0.7 exactly when it is Medium Risk,
    score < 0.4 exactly when it is Low Risk. *)
Theorem additive_level_bands :
  let score := fst (fst result) in
  let risk_level := snd (fst result) in
  risk_level = RiskScoring.risk_level_of score
  /\ ((0.7 <=? score) = true <-> risk_level = "High Risk")
  /\ ((0.4 <=? score) = true /\ (score <? 0.7) = true
      <-> risk_level = "Medium Risk")
  /\ ((score <? 0.4) = true <-> risk_level = "Low Risk").
Proof.
  rewrite compute_risk_score_value.
  unfold RiskScoring.apply_rules.
  split_triggers; vm_compute;
    repeat split; intros; try reflexivity; try discriminate;
    match goal with
    | H : _ /\ _ |- _ => destruct H; discriminate
    end.
Qed.

End Additive.

Lemma additive_score_in_unit_interval_witness :
  (Log.value (RiskScoring.cap 5.0) <=? 1.0)%float = true.
Proof.
  exact (proj1 (proj2 (proj2 (proj2
           (additive_score_in_unit_interval "u" "c" 3.0 (-5000) 0.9 0.2
              "general" None))))
           5.0%float eq_refl).
Defined.


(** Whenever the calls return, two inputs that differ only in
    additionalFactors (absent, empty or not) get the same score, risk level
    and explanations, from the additive engine and from the weighted engine
    alike. *)
Lemma additional_factors_have_no_effect
    (user_id company_name : string)
    (debt_to_equity net_profit negative_news_score late_payments_rate : float)
    (sector : string) (factors1 factors2 : option PyFactors) :
  Log.value (RiskScoring.compute_risk_score user_id company_name
               debt_to_equity net_profit negative_news_score
               late_payments_rate sector factors1)
  = Log.value (RiskScoring.compute_risk_score user_id company_name
                 debt_to_equity net_profit negative_news_score
                 late_payments_rate sector factors2)
  /\ Log.value (RiskCalculator.compute_risk_score user_id company_name
                  debt_to_equity net_profit negative_news_score
                  late_payments_rate sector factors1)
    = Log.value (RiskCalculator.compute_risk_score user_id company_name
                   debt_to_equity net_profit negative_news_score
                   late_payments_rate sector factors2).
Proof.
  split.
  - rewrite !compute_risk_score_value. reflexivity.
  - unfold RiskCalculator.compute_risk_score.
    rewrite !value_then.
    destruct (RiskCalculator.calculate_debt_to_equity_factor _ _) as [f1 e1].
    destruct (RiskCalculator.calculate_net_profit_factor _ _) as [f2 e2].
    destruct (RiskCalculator.calculate_negative_news_factor _ _) as [f3 e3].
    destruct (RiskCalculator.calculate_late_payments_factor _ _) as [f4 e4].
    repeat (rewrite value_bind; cbv beta). reflexivity.
Qed.

(** C8: the claim holds of every pair of inputs on which the calls return,
    but a call does not always return: on the inputs of the additional
    factors test, with the empty mapping both engines return their triple,
    with a mapping that holds an int of 5001 digits both raise ValueError,
    at the log line that renders the value. *)
Theorem unrenderable_factor_aborts_scoring :
  RiskScoring.outcome "test_user" "Additional Factors Corp" 1.5 2000 0.3 0.0
    "general" (Some [])
  = Returned (0.0%float, "Low Risk", [])
  /\ RiskScoring.outcome "test_user" "Additional Factors Corp" 1.5 2000 0.3
       0.0 "general" (Some [("n", PyInt (10 ^ 5000))])
     = Raised ValueError
  /\ (exists triple,
        RiskCalculator.outcome "test_user" "Additional Factors Corp" 1.5 2000
          0.3 0.0 "general" (Some [])
        = Returned triple)
  /\ RiskCalculator.outcome "test_user" "Additional Factors Corp" 1.5 2000
       0.3 0.0 "general" (Some [("n", PyInt (10 ^ 5000))])
     = Raised ValueError.
Proof.
  split; [| split; [| split]].
  - reflexivity.
  - vm_compute. reflexivity.
  - eexists. reflexivity.
  - vm_compute. reflexivity.
Qed.

(** ** The recommendation generator *)

Lemma restructuring_iff (risk_level : string) (score : float) (sector : string) :
  In RiskCalculator.restructuring_recommendation
     (RiskCalculator.get_risk_recommendations risk_level score sector)
  <-> risk_level = "High Risk" /\ (85 <? score)%float = true.
Proof.
  unfold RiskCalculator.get_risk_recommendations,
    RiskCalculator.restructuring_recommendation,
    RiskCalculator.low_risk_recommendations.
  destruct (String.eqb risk_level "High Risk") eqn:Ehigh.
  - apply String.eqb_eq in Ehigh.
    destruct (PyStr.mem _ _), (85 <? score)%float; simpl;
      intuition discriminate.
  - apply String.eqb_neq in Ehigh.
    destruct (String.eqb risk_level "Medium Risk");
      [destruct (PyStr.mem _ _) |]; simpl; intuition discriminate.
Qed.

(** C9: for every risk-level string, score and sector the generator returns
    at least two recommendations, and a level that is neither High Risk nor
    Medium Risk (any other string) gets exactly the two Low Risk
    recommendations. *)
Theorem recommendations_at_least_two
    (risk_level : string) (score : float) (sector : string) :
  (2 <= List.length
          (RiskCalculator.get_risk_recommendations risk_level score sector))%nat
  /\ (risk_level <> "High Risk" -> risk_level <> "Medium Risk" ->
      RiskCalculator.get_risk_recommendations risk_level score sector
      = ["Maintain current financial practices";
         "Annual risk reassessment recommended"]).
Proof.
  unfold RiskCalculator.get_risk_recommendations,
    RiskCalculator.low_risk_recommendations.
  destruct (String.eqb risk_level "High Risk") eqn:Ehigh;
    [| destruct (String.eqb risk_level "Medium Risk") eqn:Emedium].
  - apply String.eqb_eq in Ehigh. split.
    + destruct (PyStr.mem _ _), (85 <? score)%float; simpl;
        repeat constructor.
    + intros Hhigh _. contradiction.
  - apply String.eqb_eq in Emedium. split.
    + destruct (PyStr.mem _ _); simpl; repeat constructor.
    + intros _ Hmedium. contradiction.
  - split.
    + simpl. repeat constructor.
    + reflexivity.
Qed.

Lemma recommendations_at_least_two_witness :
  "Unknown" <> "High Risk" /\ "Unknown" <> "Medium Risk"
  /\ RiskCalculator.get_risk_recommendations "Unknown" 0.5 "retail"
     = ["Maintain current financial practices";
        "Annual risk reassessment recommended"].
Proof.
  assert (H1 : "Unknown" <> "High Risk") by discriminate.
  assert (H2 : "Unknown" <> "Medium Risk") by discriminate.
  split; [exact H1 | split; [exact H2 |]].
  exact (proj2 (recommendations_at_least_two "Unknown" 0.5 "retail") H1 H2).
Defined.

(** ** The evaluate route *)

Section Evaluate.

Variable req : Routes.RiskRequest.
Variable db : Database.Session.

Let reply : Routes.Reply Routes.RiskResponse :=
  fst (Log.value (Routes.evaluate_risk req db)).

(** The reply of the handler: always a 200, built from the weighted engine's
    triple, the recommendations for it and the id the store step got. *)
Lemma evaluate_risk_reply :
  reply =
  (let '(score, risk_level, explanations) :=
     Log.value (Routes.engine_inputs RiskCalculator.compute_risk_score req) in
   Routes.Ok200
     (Routes.mkRiskResponse score explanations risk_level
        (RiskCalculator.get_risk_recommendations risk_level score
           (Routes.sector req))
        (fst (Log.value
           (Routes.store_evaluation req score risk_level explanations db))))).
Proof.
  unfold reply, Routes.evaluate_risk, Routes.engine_inputs.
  rewrite value_then, value_bind.
  destruct (Log.value (RiskCalculator.compute_risk_score _ _ _ _ _ _ _ _))
    as [[score risk_level] explanations].
  rewrite value_bind.
  destruct (Log.value (Routes.store_evaluation _ _ _ _ _)) as [eid db'].
  reflexivity.
Qed.

(** C1, as amended: the scoring computation reachable through
    POST /api/evaluate is the 0-100 weighted engine of [risk_calculator.py]:
    for every request the (score, riskLevel, explanations) triple of the
    reply is that engine's output on the same inputs. *)
Theorem route_uses_weighted_engine :
  Routes.assessment reply
  = Some (Log.value
            (Routes.engine_inputs RiskCalculator.compute_risk_score req)).
Proof.
  rewrite evaluate_risk_reply.
  destruct (Log.value (Routes.engine_inputs _ req))
    as [[score risk_level] explanations].
  reflexivity.
Qed.

End Evaluate.

(** C1, as stated, fails on the request of the API test: the route answers
    76.0 with the weighted engine's five explanations, the additive engine
    0.85 with its four. *)
Lemma route_is_not_additive_engine :
  Routes.assessment
    (fst (Log.value (Routes.evaluate_risk Samples.req_api Samples.db_up)))
  <> Some (Log.value
             (Routes.engine_inputs RiskScoring.compute_risk_score
                Samples.req_api)).
Proof. vm_compute. discriminate. Qed.

(** Splits on the band tests of a factor helper. *)
Ltac split_bands :=
  repeat match goal with
         | |- context [if ?b then _ else _] => destruct b
         end.

(** Each factor helper appends exactly one explanation. *)
Lemma debt_factor_appends (debt_to_equity : float) (explanations : list string) :
  exists factor text,
    RiskCalculator.calculate_debt_to_equity_factor debt_to_equity explanations
    = (factor, explanations ++ [text])
    /\ text <> "High debt-to-equity ratio".
Proof.
  unfold RiskCalculator.calculate_debt_to_equity_factor.
  split_bands; eexists; eexists; (split; [reflexivity | discriminate]).
Qed.

Lemma profit_factor_appends (net_profit : float) (explanations : list string) :
  exists factor text,
    RiskCalculator.calculate_net_profit_factor net_profit explanations
    = (factor, explanations ++ [text]).
Proof.
  unfold RiskCalculator.calculate_net_profit_factor.
  split_bands; eexists; eexists; reflexivity.
Qed.

Lemma news_factor_appends (negative_news_score : float)
    (explanations : list string) :
  exists factor text,
    RiskCalculator.calculate_negative_news_factor negative_news_score
      explanations
    = (factor, explanations ++ [text]).
Proof.
  unfold RiskCalculator.calculate_negative_news_factor.
  split_bands; eexists; eexists; reflexivity.
Qed.

Lemma payments_factor_appends (late_payments_rate : float)
    (explanations : list string) :
  exists factor text,
    RiskCalculator.calculate_late_payments_factor late_payments_rate
      explanations
    = (factor, explanations ++ [text]).
Proof.
  unfold RiskCalculator.calculate_late_payments_factor.
  split_bands; eexists; eexists; reflexivity.
Qed.

(** The weighted engine always explains five things, and the first is never
    the additive engine's debt explanation. *)
Lemma weighted_explanations_shape
    (user_id company_name : string)
    (debt_to_equity net_profit negative_news_score late_payments_rate : float)
    (sector : string) (additional_factors : option PyFactors) :
  exists t1 t2 t3 t4 t5,
    snd (Log.value
           (RiskCalculator.compute_risk_score user_id company_name
              debt_to_equity net_profit negative_news_score
              late_payments_rate sector additional_factors))
    = [t1; t2; t3; t4; t5]
    /\ t1 <> "High debt-to-equity ratio".
Proof.
  unfold RiskCalculator.compute_risk_score. rewrite value_then.
  destruct (debt_factor_appends debt_to_equity []) as (f1 & t1 & -> & Ht1).
  destruct (profit_factor_appends net_profit ([] ++ [t1]))
    as (f2 & t2 & ->).
  destruct (news_factor_appends negative_news_score (([] ++ [t1]) ++ [t2]))
    as (f3 & t3 & ->).
  destruct (payments_factor_appends late_payments_rate
              ((([] ++ [t1]) ++ [t2]) ++ [t3])) as (f4 & t4 & ->).
  repeat (rewrite value_bind; cbv beta).
  exists t1, t2, t3, t4. eexists. split; [reflexivity | exact Ht1].
Qed.

(** The two engines disagree on every request, not only on some: the route
    never returns the additive engine's triple. *)
Lemma route_never_additive_engine
    (req : Routes.RiskRequest) (db : Database.Session) :
  Routes.assessment (fst (Log.value (Routes.evaluate_risk req db)))
  <> Some (Log.value
             (Routes.engine_inputs RiskScoring.compute_risk_score req)).
Proof.
  rewrite evaluate_risk_reply. unfold Routes.engine_inputs.
  destruct (weighted_explanations_shape
              (Routes.user_id req) (Routes.companyName req)
              (Routes.debtToEquity req) (Routes.netProfit req)
              (Routes.negativeNewsScore req) (Routes.latePaymentsRate req)
              (Routes.sector req) (Some (Routes.additionalFactors req)))
    as (t1 & t2 & t3 & t4 & t5 & Hshape & Ht1).
  destruct (Log.value (RiskCalculator.compute_risk_score _ _ _ _ _ _ _ _))
    as [[score risk_level] explanations].
  cbn [snd] in Hshape. subst explanations.
  cbn [Routes.assessment Routes.score Routes.recommendation
       Routes.explanations].
  intros Heq. injection Heq as Heq. apply (f_equal snd) in Heq.
  cbn [snd] in Heq.
  rewrite compute_risk_score_value in Heq.
  unfold RiskScoring.apply_rules in Heq.
  revert Heq.
  destruct (2 <? Routes.debtToEquity req)%float;
    destruct (Routes.netProfit req <? 0)%float;
    destruct (0.5 <? Routes.negativeNewsScore req)%float;
    destruct (0.1 <? Routes.latePaymentsRate req)%float;
    destruct (PyStr.mem _ _);
    cbn; intros Heq; try discriminate Heq;
    injection Heq as Hhead; contradiction.
Qed.

(** C5, as stated, fails: with every factor at its worst in the oil sector
    the route scores 100.0, and its reply carries the restructuring
    recommendation. *)
Lemma restructuring_reached_through_route :
  In RiskCalculator.restructuring_recommendation
     (Routes.reply_recommendations
        (fst (Log.value
           (Routes.evaluate_risk Samples.req_extreme Samples.db_up)))).
Proof. vm_compute. do 3 right. left. reflexivity. Qed.

(** C5, as amended: the [score > 85] branch is unreachable for the scores of
    the additive 0-1 engine, whose (riskLevel, score) never brings the
    restructuring recommendation; the evaluate route is wired to the
    weighted 0-100 engine, and its reply carries that recommendation exactly
    when that engine's level is High Risk and its score exceeds 85. *)
Theorem restructuring_branch_reachability :
  (forall (user_id company_name : string)
          (debt_to_equity net_profit negative_news_score
           late_payments_rate : float)
          (sector : string) (additional_factors : option PyFactors),
      let '(score, risk_level, _) :=
        Log.value (RiskScoring.compute_risk_score user_id company_name
                     debt_to_equity net_profit negative_news_score
                     late_payments_rate sector additional_factors) in
      ~ In RiskCalculator.restructuring_recommendation
           (RiskCalculator.get_risk_recommendations risk_level score sector))
  /\ (forall (req : Routes.RiskRequest) (db : Database.Session),
      let '(score, risk_level, _) :=
        Log.value
          (Routes.engine_inputs RiskCalculator.compute_risk_score req) in
      In RiskCalculator.restructuring_recommendation
         (Routes.reply_recommendations
            (fst (Log.value (Routes.evaluate_risk req db))))
      <-> risk_level = "High Risk" /\ (85 <? score)%float = true).
Proof.
  split.
  - intros. rewrite compute_risk_score_value.
    unfold RiskScoring.apply_rules.
    split_triggers; cbn -[RiskCalculator.get_risk_recommendations In];
      rewrite restructuring_iff; intros [_ Hscore]; discriminate Hscore.
  - intros. rewrite evaluate_risk_reply.
    destruct (Log.value (Routes.engine_inputs _ req))
      as [[score risk_level] explanations].
    cbn [Routes.reply_recommendations Routes.recommendations].
    apply restructuring_iff.
Qed.

Lemma restructuring_branch_reachability_witness :
  In RiskCalculator.restructuring_recommendation
     (Routes.reply_recommendations
        (fst (Log.value
           (Routes.evaluate_risk Samples.req_extreme Samples.db_up))))
  <-> "High Risk" = "High Risk" /\ (85 <? 100)%float = true.
Proof.
  exact (proj2 restructuring_branch_reachability
           Samples.req_extreme Samples.db_up).
Defined.

(** C6: when the store rejects the write, the evaluate endpoint still
    answers 200 with the score, explanations, risk level and recommendations
    it computed, and with evaluation_id None; nothing is written and the
    failure is not raised to the caller. *)
Theorem storage_failure_is_not_fatal
    (req : Routes.RiskRequest) (db : Database.Session) :
  Database.writable db = false ->
  let '(score, risk_level, explanations) :=
    Log.value (Routes.engine_inputs RiskCalculator.compute_risk_score req) in
  let '(reply, db') := Log.value (Routes.evaluate_risk req db) in
  reply = Routes.Ok200
            (Routes.mkRiskResponse score explanations risk_level
               (RiskCalculator.get_risk_recommendations risk_level score
                  (Routes.sector req))
               None)
  /\ Database.table db' = Database.table db
  /\ Database.pending db' = [].
Proof.
  intros Hdown.
  unfold Routes.evaluate_risk, Routes.engine_inputs in *.
  rewrite value_then, value_bind in *.
  destruct (Log.value (RiskCalculator.compute_risk_score _ _ _ _ _ _ _ _))
    as [[score risk_level] explanations].
  rewrite value_bind in *.
  unfold Routes.store_evaluation, Database.add, Database.commit in *.
  cbn [Database.writable] in *. rewrite Hdown in *.
  cbn. repeat split.
Qed.

Lemma storage_failure_is_not_fatal_witness :
  fst (Log.value (Routes.evaluate_risk Samples.req_api Samples.db_down))
  = Routes.Ok200
      (Routes.mkRiskResponse 76
         ["High debt-to-equity ratio increases financial risk";
          "Negative net profit shows concerning financial performance";
          "High negative news coverage suggests significant reputational risk";
          "Elevated late payments rate may indicate cash flow issues";
          "Technology sector has moderate baseline risk"]
         "High Risk"
         ["Conduct immediate comprehensive financial review";
          "Develop debt reduction strategy";
          "Implement stricter accounts receivable policies"]
         None).
Proof.
  pose proof (storage_failure_is_not_fatal Samples.req_api Samples.db_down
                eq_refl) as H.
  vm_compute in H. vm_compute. exact (proj1 H).
Defined.

(** ** The [explanations] property *)

Section JsonRoundTrip.

Import Unicode Json Decoding.
Local Open Scope N_scope.

Lemma feed_app (s1 s2 : str) :
  forall st items,
    feed st items (s1 ++ s2) =
    match feed st items s1 with
    | Some (st', items') => feed st' items' s2
    | None => None
    end.
Proof.
  induction s1 as [| c s1 IH]; intros st items; simpl.
  - reflexivity.
  - destruct (step st items c) as [[st' items'] |]; [apply IH | reflexivity].
Qed.

Lemma hex_value_digit (d : N) : d < 16 -> hex_value (hex_digit d) = Some d.
Proof.
  intros Hd. unfold hex_digit, hex_value.
  destruct (N.ltb_spec d 10).
  - replace ((48 <=? 48 + d) && (48 + d <=? 57)) with true.
    + f_equal. lia.
    + symmetry. apply andb_true_iff. split; apply N.leb_le; lia.
  - replace ((48 <=? 87 + d) && (87 + d <=? 57)) with false.
    + replace ((97 <=? 87 + d) && (87 + d <=? 102)) with true.
      * f_equal. lia.
      * symmetry. apply andb_true_iff. split; apply N.leb_le; lia.
    + symmetry. apply andb_false_iff. right. apply N.leb_gt. lia.
Qed.

Lemma hex4_digits (n : N) :
  n < 65536 ->
  16 * (16 * (16 * (16 * 0 + (n / 4096) mod 16) + (n / 256) mod 16)
        + (n / 16) mod 16) + n mod 16 = n.
Proof.
  intros Hn.
  pose proof (N.div_mod n 16 ltac:(lia)).
  pose proof (N.div_mod (n / 16) 16 ltac:(lia)).
  pose proof (N.div_mod (n / 256) 16 ltac:(lia)).
  assert (n / 16 / 16 = n / 256) by (rewrite N.Div0.div_div; reflexivity).
  assert (n / 256 / 16 = n / 4096) by (rewrite N.Div0.div_div; reflexivity).
  assert (n / 4096 < 16) by (apply N.Div0.div_lt_upper_bound; lia).
  rewrite (N.mod_small (n / 4096) 16) by assumption.
  lia.
Qed.

Lemma mod16_lt (n : N) : n mod 16 < 16.
Proof. apply N.mod_lt. lia. Qed.

Lemma feed_hex (n : N) (acc rest : str) (items : list str) :
  n < 65536 ->
  feed (Hex 4 0 acc) items (hex4 n ++ rest)
  = feed (end_of_escape n acc) items rest.
Proof.
  intros Hn. unfold hex4. cbn [app feed step].
  rewrite !hex_value_digit by apply mod16_lt.
  cbv zeta. cbn [feed step]. 
  rewrite !hex_value_digit by apply mod16_lt.
  cbv zeta. cbn [feed step].
  rewrite !hex_value_digit by apply mod16_lt.
  cbv zeta. cbn [feed step].
  rewrite !hex_value_digit by apply mod16_lt.
  cbv zeta.
  rewrite hex4_digits by exact Hn. reflexivity.
Qed.

Lemma feed_hex_low (n high : N) (acc rest : str) (items : list str) :
  n < 65536 ->
  feed (HexLow 4 0 high acc) items (hex4 n ++ rest)
  = feed (state_of (emit (acc, Some high) n)) items rest.
Proof.
  intros Hn. unfold hex4. cbn [app feed step].
  rewrite !hex_value_digit by apply mod16_lt.
  cbv zeta. cbn [feed step].
  rewrite !hex_value_digit by apply mod16_lt.
  cbv zeta. cbn [feed step].
  rewrite !hex_value_digit by apply mod16_lt.
  cbv zeta. cbn [feed step].
  rewrite !hex_value_digit by apply mod16_lt.
  cbv zeta.
  rewrite hex4_digits by exact Hn.
  unfold emit, end_of_escape.
  destruct (is_low_surrogate n); [reflexivity |].
  destruct (is_high_surrogate n); [reflexivity |].
  cbn [state_of]. rewrite <- app_assoc. reflexivity.
Qed.

(** A [\uXXXX] escape, read inside a string literal. *)
Lemma feed_unicode_escape (n : N) (p : Progress) (rest : str)
    (items : list str) :
  n < 65536 ->
  feed (state_of p) items (unicode_escape n ++ rest)
  = feed (state_of (emit p n)) items rest.
Proof.
  intros Hn. destruct p as [acc [high |]]; unfold unicode_escape.
  - cbn [state_of app feed step].
    change (backslash =? backslash) with true. cbv iota.
    cbn [feed step]. change (117 =? 117) with true. cbv iota.
    apply feed_hex_low. exact Hn.
  - cbn [state_of app feed step]. unfold step_in_string.
    change (backslash =? quote) with false.
    change (backslash =? backslash) with true. cbv iota.
    cbn [feed step]. unfold step_escaped.
    change (117 =? 117) with true. cbv iota.
    rewrite feed_hex by exact Hn.
    unfold emit, end_of_escape.
    destruct (is_high_surrogate n); reflexivity.
Qed.

Lemma high_surrogate_iff (c : N) :
  is_high_surrogate c = true <-> 0xD800 <= c <= 0xDBFF.
Proof.
  unfold is_high_surrogate. rewrite andb_true_iff, !N.leb_le. reflexivity.
Qed.

Lemma low_surrogate_iff (c : N) :
  is_low_surrogate c = true <-> 0xDC00 <= c <= 0xDFFF.
Proof.
  unfold is_low_surrogate. rewrite andb_true_iff, !N.leb_le. reflexivity.
Qed.

Lemma not_high_surrogate (c : N) :
  c < 0xD800 \/ 0xDBFF < c -> is_high_surrogate c = false.
Proof.
  intros Hc. destruct (is_high_surrogate c) eqn:E; [| reflexivity].
  apply high_surrogate_iff in E. lia.
Qed.

Lemma not_low_surrogate (c : N) :
  c < 0xDC00 \/ 0xDFFF < c -> is_low_surrogate c = false.
Proof.
  intros Hc. destruct (is_low_surrogate c) eqn:E; [| reflexivity].
  apply low_surrogate_iff in E. lia.
Qed.

(** A character the encoder writes as itself, read inside a string
    literal. *)
Lemma feed_literal (c : N) (p : Progress) (rest : str) (items : list str) :
  32 <= c -> c <> quote -> c <> backslash ->
  feed (state_of p) items (c :: rest)
  = feed (InString (content p ++ [c])) items rest.
Proof.
  intros Hc Hq Hb.
  apply N.eqb_neq in Hq, Hb.
  assert (Hlow : (c <? 32) = false) by (apply N.ltb_ge; exact Hc).
  destruct p as [acc [high |]]; cbn [state_of content feed step].
  - rewrite Hb. unfold step_in_string. rewrite Hq, Hb, Hlow. reflexivity.
  - unfold step_in_string. rewrite Hq, Hb, Hlow. reflexivity.
Qed.

(** A two-character escape, read inside a string literal. *)
Lemma feed_short_escape (e d : N) (p : Progress) (rest : str)
    (items : list str) :
  e <> 117 -> unescape e = Some d ->
  feed (state_of p) items (backslash :: e :: rest)
  = feed (InString (content p ++ [d])) items rest.
Proof.
  intros He Hd. apply N.eqb_neq in He.
  destruct p as [acc [high |]]; cbn [state_of content feed step].
  - change (backslash =? backslash) with true. cbv iota.
    cbn [feed step]. rewrite He. unfold step_escaped. rewrite He, Hd.
    reflexivity.
  - unfold step_in_string.
    change (backslash =? quote) with false.
    change (backslash =? backslash) with true. cbv iota.
    cbn [feed step]. unfold step_escaped. rewrite He, Hd. reflexivity.
Qed.

Lemma surrogate_pair_of (c : N) :
  0x10000 <= c <= 0x10FFFF ->
  let v := c - 0x10000 in
  let high := 0xD800 + (v / 1024) mod 1024 in
  let low := 0xDC00 + v mod 1024 in
  is_high_surrogate high = true /\ is_low_surrogate low = true
  /\ high < 65536 /\ low < 65536 /\ join_surrogates high low = c.
Proof.
  intros Hc. cbv zeta.
  assert (Hc' : c = 0x10000 + (c - 0x10000)) by lia.
  assert (Hv : c - 0x10000 < 0x100000) by lia.
  generalize dependent (c - 0x10000). intros v Hc' Hv.
  assert (Hq : v / 1024 < 1024) by (apply N.Div0.div_lt_upper_bound; lia).
  assert (Hm : v mod 1024 < 1024) by (apply N.mod_lt; lia).
  pose proof (N.div_mod v 1024 ltac:(lia)) as Hdiv.
  rewrite (N.mod_small (v / 1024)) by exact Hq.
  generalize dependent (v / 1024). intros q Hq Hdiv.
  generalize dependent (v mod 1024). intros m Hm Hdiv.
  rewrite high_surrogate_iff, low_surrogate_iff. unfold join_surrogates.
  repeat split; lia.
Qed.

(** One code point of the encoded string, read back. *)
Lemma feed_escape_char (c : N) (p : Progress) (rest : str)
    (items : list str) :
  is_code_point c = true ->
  unpaired p [c] = true ->
  feed (state_of p) items (escape_char c ++ rest)
  = feed (state_of (push p c)) items rest.
Proof.
  intros Hcp Hunpaired. unfold is_code_point in Hcp. apply N.leb_le in Hcp.
  unfold escape_char, push.
  destruct (N.eqb_spec c quote) as [-> | Hquote].
  { apply (feed_short_escape 34 34); [discriminate | reflexivity]. }
  destruct (N.eqb_spec c backslash) as [-> | Hbackslash].
  { apply (feed_short_escape 92 92); [discriminate | reflexivity]. }
  destruct (N.eqb_spec c 8) as [-> | H8].
  { apply (feed_short_escape 98 8); [discriminate | reflexivity]. }
  destruct (N.eqb_spec c 12) as [-> | H12].
  { apply (feed_short_escape 102 12); [discriminate | reflexivity]. }
  destruct (N.eqb_spec c 10) as [-> | H10].
  { apply (feed_short_escape 110 10); [discriminate | reflexivity]. }
  destruct (N.eqb_spec c 13) as [-> | H13].
  { apply (feed_short_escape 114 13); [discriminate | reflexivity]. }
  destruct (N.eqb_spec c 9) as [-> | H9].
  { apply (feed_short_escape 116 9); [discriminate | reflexivity]. }
  destruct (printable c) eqn:Hprintable.
  { unfold printable in Hprintable.
    apply andb_true_iff in Hprintable. destruct Hprintable as [Hlo Hhi].
    apply N.leb_le in Hlo, Hhi.
    rewrite not_high_surrogate by lia.
    apply feed_literal; assumption. }
  destruct (N.ltb_spec c 0x10000) as [Hbmp | Hastral].
  - rewrite feed_unicode_escape by exact Hbmp.
    destruct p as [acc [high |]]; cbn [emit content state_of].
    + unfold unpaired in Hunpaired. cbn [snd] in Hunpaired.
      apply negb_true_iff in Hunpaired. rewrite Hunpaired.
      destruct (is_high_surrogate c); [reflexivity |].
      cbn [state_of]. rewrite <- app_assoc. reflexivity.
    + destruct (is_high_surrogate c); reflexivity.
  - cbv zeta. rewrite <- app_assoc.
    destruct (surrogate_pair_of c ltac:(lia))
      as (Hhigh & Hlow & Hhb & Hlb & Hjoin).
    rewrite feed_unicode_escape by exact Hhb.
    rewrite feed_unicode_escape by exact Hlb.
    rewrite (not_high_surrogate c) by lia.
    destruct p as [acc [held |]]; cbn [emit content].
    + rewrite (not_low_surrogate (0xD800 + _)).
      2:{ apply high_surrogate_iff in Hhigh. lia. }
      rewrite Hhigh. cbn [emit]. rewrite Hlow, Hjoin. reflexivity.
    + rewrite Hhigh. cbn [emit]. rewrite Hlow, Hjoin. reflexivity.
Qed.

Lemma content_push (p : Progress) (c : N) :
  content (push p c) = content p ++ [c].
Proof. unfold push. destruct (is_high_surrogate c); reflexivity. Qed.

(** A whole encoded string, read back up to its closing quote. *)
Lemma feed_escape (s : str) :
  forall (p : Progress) (rest : str) (items : list str),
    is_str s = true ->
    has_surrogate_pair s = false ->
    unpaired p s = true ->
    (forall high, snd p = Some high -> is_high_surrogate high = true) ->
    feed (state_of p) items (escape s ++ quote :: rest)
    = feed AfterValue (items ++ [content p ++ s]) rest.
Proof.
  induction s as [| c s IH]; intros p rest items Hstr Hpair Hunpaired Hheld.
  - cbn [escape app]. rewrite app_nil_r.
    destruct p as [acc [high |]]; reflexivity.
  - cbn [escape]. rewrite <- app_assoc.
    cbn [is_str forallb] in Hstr. apply andb_true_iff in Hstr.
    destruct Hstr as [Hc Hstr].
    rewrite feed_escape_char;
      [| exact Hc | destruct p as [acc [high |]]; exact Hunpaired].
    rewrite IH.
    + rewrite content_push, <- app_assoc. reflexivity.
    + exact Hstr.
    + destruct s as [| b s]; [reflexivity |].
      cbn [has_surrogate_pair] in Hpair.
      apply orb_false_iff in Hpair. apply Hpair.
    + unfold unpaired, push.
      destruct (is_high_surrogate c) eqn:Hhigh; [| reflexivity].
      cbn [snd]. destruct s as [| b s]; [reflexivity |].
      cbn [has_surrogate_pair] in Hpair.
      apply orb_false_iff in Hpair. destruct Hpair as [Hpair _].
      rewrite Hhigh in Hpair. cbn [andb] in Hpair. rewrite Hpair.
      reflexivity.
    + unfold push. intros high.
      destruct (is_high_surrogate c) eqn:Hhigh; cbn [snd].
      * intros [= <-]. exact Hhigh.
      * discriminate.
Qed.

(** The strings that come back as they went: Python strings in which no
    high surrogate is immediately followed by a low one. *)
Let sound (s : str) : Prop :=
  is_str s = true /\ has_surrogate_pair s = false.

(** A string literal, read where a value may start. *)
Lemma feed_encode_string (st : State) (s rest : str) (items : list str) :
  st = Opened \/ st = AfterComma ->
  sound s ->
  feed st items (encode_string s ++ rest)
  = feed AfterValue (items ++ [s]) rest.
Proof.
  intros Hst [Hstr Hpair]. unfold encode_string.
  cbn [app]. rewrite <- app_assoc. cbn [app].
  assert (Hopen : step st items quote = Some (InString [], items))
    by (destruct Hst; subst st; reflexivity).
  cbn [feed]. rewrite Hopen.
  apply (feed_escape s ([], None)); try assumption.
  - reflexivity.
  - discriminate.
Qed.

Lemma feed_separator (rest : str) (items : list str) :
  feed AfterValue items ([44; 32] ++ rest) = feed AfterComma items rest.
Proof. reflexivity. Qed.

Lemma feed_open_bracket (rest : str) :
  feed Start [] ([91] ++ rest) = feed Opened [] rest.
Proof. reflexivity. Qed.

Lemma feed_close_bracket (items : list str) :
  feed AfterValue items [93] = Some (Closed, items).
Proof. reflexivity. Qed.

(** The text after the first element: each further element behind a
    separator, then the closing bracket. *)
Lemma feed_tail (l : list str) :
  forall items,
    Forall sound l ->
    feed AfterValue items
         (fold_right (fun x acc => [44; 32] ++ encode_string x ++ acc) [93] l)
    = Some (Closed, items ++ l).
Proof.
  induction l as [| x l IH]; intros items Hsound.
  - rewrite app_nil_r. apply feed_close_bracket.
  - inversion Hsound as [| ? ? Hx Hl]; subst.
    cbv beta iota delta [fold_right]; fold (fold_right
      (fun x acc => [44; 32] ++ encode_string x ++ acc) [93] l).
    rewrite feed_separator.
    rewrite feed_encode_string by (try (right; reflexivity); exact Hx).
    rewrite IH by exact Hl. rewrite <- app_assoc. reflexivity.
Qed.

Lemma join_tail (x : str) (l : list str) (close : str) :
  join [44; 32] (map encode_string (x :: l)) ++ close
  = encode_string x ++
    fold_right (fun y acc => [44; 32] ++ encode_string y ++ acc) close l.
Proof.
  revert x. induction l as [| y l IH]; intros x.
  - reflexivity.
  - change (join [44; 32] (map encode_string (x :: y :: l)))
      with (encode_string x ++ [44; 32] ++
            join [44; 32] (map encode_string (y :: l))).
    change (fold_right (fun y acc => [44; 32] ++ encode_string y ++ acc) close
              (y :: l))
      with ([44; 32] ++ encode_string y ++
            fold_right (fun y acc => [44; 32] ++ encode_string y ++ acc)
              close l).
    rewrite <- IH, <- !app_assoc. reflexivity.
Qed.

(** [json.loads(json.dumps(value)) == value] for a list of such strings. *)
Lemma loads_dumps (value : list str) :
  Forall sound value -> loads (dumps value) = Some value.
Proof.
  intros Hsound. unfold loads, dumps.
  destruct value as [| x l].
  - reflexivity.
  - inversion Hsound as [| ? ? Hx Hl]; subst.
    rewrite join_tail, feed_open_bracket.
    rewrite feed_encode_string by (try (left; reflexivity); exact Hx).
    rewrite feed_tail by exact Hl. reflexivity.
Qed.

Lemma dumps_truthy (value : list str) : truthy (dumps value) = true.
Proof. reflexivity. Qed.

(** Strings of characters below 256 are sound. *)
Lemma of_string_sound (s : string) : sound (of_string s).
Proof.
  unfold sound, of_string.
  assert (Hsmall : Forall (fun c => c < 256)
                     (map N_of_ascii (list_ascii_of_string s))).
  { induction s as [| a s IH]; cbn [list_ascii_of_string map];
      constructor; [apply N_ascii_bounded | exact IH]. }
  induction Hsmall as [| c l Hc Hl [IH1 IH2]].
  - split; reflexivity.
  - split.
    + unfold is_str in *. cbn [forallb]. rewrite IH1. unfold is_code_point.
      replace (c <=? 0x10FFFF) with true; [reflexivity |].
      symmetry. apply N.leb_le. lia.
    + destruct l as [| b l]; [reflexivity |].
      change (has_surrogate_pair (c :: b :: l))
        with ((is_high_surrogate c && is_low_surrogate b)
              || has_surrogate_pair (b :: l)).
      rewrite IH2, not_high_surrogate by lia. reflexivity.
Qed.

End JsonRoundTrip.

(** C10, as stated, fails: a string that holds a high surrogate immediately
    followed by a low one is written as two escapes, which read back as the
    one code point they encode together. *)
Lemma surrogate_pair_does_not_round_trip :
  Models.explanations
    (Models.set_explanations Models.new [[0xD83D; 0xDE00]%N])
  = Some [[0x1F600]%N]
  /\ Models.explanations
       (Models.set_explanations Models.new [[0xD83D; 0xDE00]%N])
     <> Some [[0xD83D; 0xDE00]%N].
Proof. split; [vm_compute; reflexivity | vm_compute; discriminate]. Qed.

(** C10, as amended: the explanations column round-trips for every list of
    strings in which no high surrogate is immediately followed by a low
    surrogate (every list of well-formed Unicode strings is such a list):
    reading the property after assigning the list gives the list back (the
    empty list included), and reading it on an object whose column was never
    assigned gives the empty list. *)
Theorem explanations_round_trip
    (self : Models.RiskEvaluation) (value : list Unicode.str) :
  Forall (fun s => Unicode.is_str s = true) value ->
  Forall (fun s => Unicode.has_surrogate_pair s = false) value ->
  Models.explanations (Models.set_explanations self value) = Some value
  /\ Models.explanations (Models.set_explanations self []) = Some []
  /\ Models.explanations Models.new = Some []
  /\ (Models.explanations_json self = None ->
      Models.explanations self = Some []).
Proof.
  intros Hstr Hpairs.
  assert (Hsound : Forall (fun s => Unicode.is_str s = true
                                    /\ Unicode.has_surrogate_pair s = false)
                          value).
  { rewrite Forall_forall in *. intros s Hs. split; auto. }
  split; [| split; [reflexivity | split; [reflexivity |]]].
  - unfold Models.explanations, Models.set_explanations.
    cbn [Models.explanations_json].
    rewrite dumps_truthy. apply loads_dumps. exact Hsound.
  - intros Hnone. unfold Models.explanations. rewrite Hnone. reflexivity.
Qed.

Lemma explanations_round_trip_witness :
  Models.explanations
    (Models.set_explanations Models.new
       [Unicode.of_string "High debt-to-equity ratio"; [0x1F600; 233]%N])
  = Some [Unicode.of_string "High debt-to-equity ratio"; [0x1F600; 233]%N]
  /\ Models.explanations Models.new = Some [].
Proof.
  assert (Hstr : Forall (fun s => Unicode.is_str s = true)
                   [Unicode.of_string "High debt-to-equity ratio";
                    [0x1F600; 233]%N])
    by (repeat constructor).
  assert (Hpairs : Forall (fun s => Unicode.has_surrogate_pair s = false)
                     [Unicode.of_string "High debt-to-equity ratio";
                      [0x1F600; 233]%N])
    by (repeat constructor).
  pose proof (explanations_round_trip Models.new _ Hstr Hpairs)
    as [Hset [_ [Hnew _]]].
  split; [exact Hset | exact Hnew].
Defined.

(** * Further properties of the code *)

(** ** The additive engine, beyond the rule table *)

(** Resolves one pair of triggers under the hypothesis that the first
    implies the second. *)
Ltac split_implied H :=
  match type of H with
  | ?b = true -> ?b' = true =>
      destruct b; destruct b';
      try (specialize (H eq_refl); discriminate H); clear H
  end.

(** An input that triggers every rule another input triggers scores at
    least as much: triggering a further rule never lowers the score. *)
Theorem additive_score_monotone_in_triggers
    (user_id user_id' company_name company_name' : string)
    (debt_to_equity net_profit negative_news_score late_payments_rate : float)
    (debt_to_equity' net_profit' negative_news_score'
     late_payments_rate' : float)
    (sector sector' : string)
    (additional_factors additional_factors' : option PyFactors) :
  ((2 <? debt_to_equity)%float = true ->
   (2 <? debt_to_equity')%float = true) ->
  ((net_profit <? 0)%float = true -> (net_profit' <? 0)%float = true) ->
  ((0.5 <? negative_news_score)%float = true ->
   (0.5 <? negative_news_score')%float = true) ->
  ((0.1 <? late_payments_rate)%float = true ->
   (0.1 <? late_payments_rate')%float = true) ->
  (PyStr.mem (PyStr.lower sector) ["oil"; "gas"; "energy"] = true ->
   PyStr.mem (PyStr.lower sector') ["oil"; "gas"; "energy"] = true) ->
  (fst (fst (Log.value
     (RiskScoring.compute_risk_score user_id company_name debt_to_equity
        net_profit negative_news_score late_payments_rate sector
        additional_factors)))
   <=?
   fst (fst (Log.value
     (RiskScoring.compute_risk_score user_id' company_name' debt_to_equity'
        net_profit' negative_news_score' late_payments_rate' sector'
        additional_factors'))))%float = true.
Proof.
  intros Hdebt Hprofit Hnews Hlate Hsector.
  rewrite !compute_risk_score_value. unfold RiskScoring.apply_rules.
  split_implied Hdebt; split_implied Hprofit; split_implied Hnews;
    split_implied Hlate; split_implied Hsector; reflexivity.
Qed.

Lemma additive_score_monotone_in_triggers_witness :
  (fst (fst (Log.value
     (RiskScoring.compute_risk_score "u" "a" 2.0 5000 0.9 0.05 "retail"
        None)))
   <=?
   fst (fst (Log.value
     (RiskScoring.compute_risk_score "v" "b" 2.5 5000 0.6 0.05 "Gas"
        (Some [])))))%float = true.
Proof.
  apply additive_score_monotone_in_triggers;
    vm_compute; intros H; try reflexivity; discriminate H.
Defined.

Section AdditiveShape.

Local Open Scope float_scope.

Variables (user_id company_name : string).
Variables (debt_to_equity net_profit negative_news_score
           late_payments_rate : float).
Variable sector : string.
Variable additional_factors : option PyFactors.

Let result : float * string * list string :=
  Log.value (RiskScoring.compute_risk_score user_id company_name
               debt_to_equity net_profit negative_news_score
               late_payments_rate sector additional_factors).

(** The cap of lines 80-83 never fires: the five amounts add up to 0.95 at
    most, so the score returned is the raw sum itself. *)
Theorem additive_cap_never_fires :
  fst (fst result)
    = RiskScoring.raw_score debt_to_equity net_profit negative_news_score
                            late_payments_rate sector
  /\ (fst (fst result) <=? 0.95) = true.
Proof.
  unfold result. rewrite compute_risk_score_value.
  unfold RiskScoring.raw_score, RiskScoring.apply_rules.
  split_triggers; split; reflexivity.
Qed.

(** How the level relates to the number of explanations: no explanation
    exactly when the score is zero; at most one explanation means Low Risk;
    High Risk takes at least three; all five give 0.95. *)
Theorem additive_level_by_rule_count :
  let score := fst (fst result) in
  let risk_level := snd (fst result) in
  let count := List.length (snd result) in
  (count = 0%nat <-> (0 <? score) = false)
  /\ ((count <= 1)%nat -> risk_level = "Low Risk")
  /\ (risk_level = "High Risk" -> (3 <= count)%nat)
  /\ (count = 5%nat -> score = 0.95 /\ risk_level = "High Risk").
Proof.
  unfold result. rewrite compute_risk_score_value.
  unfold RiskScoring.apply_rules.
  split_triggers; vm_compute;
    repeat split; intros; try reflexivity; try discriminate; try lia.
Qed.

End AdditiveShape.

Lemma additive_level_by_rule_count_witness :
  snd (fst (Log.value
    (RiskScoring.compute_risk_score "u" "c" 3.0 5000 0.1 0.05 "general"
       None))) = "Low Risk".
Proof.
  apply (additive_level_by_rule_count "u" "c" 3.0 5000 0.1 0.05 "general"
           None).
  vm_compute. repeat constructor.
Defined.

(** [user_id] and [company_name] reach the log only: neither engine's
    score, level or explanations depend on them. *)
Theorem requester_and_company_have_no_effect
    (user_id user_id' company_name company_name' : string)
    (debt_to_equity net_profit negative_news_score late_payments_rate : float)
    (sector : string) (additional_factors : option PyFactors) :
  Log.value (RiskScoring.compute_risk_score user_id company_name
               debt_to_equity net_profit negative_news_score
               late_payments_rate sector additional_factors)
  = Log.value (RiskScoring.compute_risk_score user_id' company_name'
                 debt_to_equity net_profit negative_news_score
                 late_payments_rate sector additional_factors)
  /\ Log.value (RiskCalculator.compute_risk_score user_id company_name
                  debt_to_equity net_profit negative_news_score
                  late_payments_rate sector additional_factors)
    = Log.value (RiskCalculator.compute_risk_score user_id' company_name'
                   debt_to_equity net_profit negative_news_score
                   late_payments_rate sector additional_factors).
Proof.
  split.
  - rewrite !compute_risk_score_value. reflexivity.
  - unfold RiskCalculator.compute_risk_score.
    rewrite !value_then.
    destruct (RiskCalculator.calculate_debt_to_equity_factor _ _) as [f1 e1].
    destruct (RiskCalculator.calculate_net_profit_factor _ _) as [f2 e2].
    destruct (RiskCalculator.calculate_negative_news_factor _ _) as [f3 e3].
    destruct (RiskCalculator.calculate_late_payments_factor _ _) as [f4 e4].
    repeat (rewrite value_bind; cbv beta). reflexivity.
Qed.

(** ** The weighted engine *)

Section FactorHelpers.

Local Open Scope float_scope.

Variable explanations : list string.

Lemma debt_factor_eq (debt_to_equity : float) :
  RiskCalculator.calculate_debt_to_equity_factor debt_to_equity explanations
  = (Weighted.debt_factor debt_to_equity,
     explanations ++ [Weighted.debt_text debt_to_equity]).
Proof.
  unfold Weighted.debt_factor, Weighted.debt_text,
    RiskCalculator.calculate_debt_to_equity_factor.
  split_bands; reflexivity.
Qed.

Lemma profit_factor_eq (net_profit : float) :
  RiskCalculator.calculate_net_profit_factor net_profit explanations
  = (Weighted.profit_factor net_profit,
     explanations ++ [Weighted.profit_text net_profit]).
Proof.
  unfold Weighted.profit_factor, Weighted.profit_text,
    RiskCalculator.calculate_net_profit_factor.
  split_bands; reflexivity.
Qed.

Lemma news_factor_eq (negative_news_score : float) :
  RiskCalculator.calculate_negative_news_factor negative_news_score
    explanations
  = (Weighted.news_factor negative_news_score,
     explanations ++ [Weighted.news_text negative_news_score]).
Proof.
  unfold Weighted.news_factor, Weighted.news_text,
    RiskCalculator.calculate_negative_news_factor.
  split_bands; reflexivity.
Qed.

Lemma payments_factor_eq (late_payments_rate : float) :
  RiskCalculator.calculate_late_payments_factor late_payments_rate
    explanations
  = (Weighted.payments_factor late_payments_rate,
     explanations ++ [Weighted.payments_text late_payments_rate]).
Proof.
  unfold Weighted.payments_factor, Weighted.payments_text,
    RiskCalculator.calculate_late_payments_factor.
  split_bands; reflexivity.
Qed.

End FactorHelpers.

(** Closes a goal [In x l] for a concrete list [l] that holds [x]. *)
Ltac pick_member :=
  simpl; repeat first [left; reflexivity | right].

Lemma debt_factor_in (x : float) :
  In (Weighted.debt_factor x) Weighted.debt_factors.
Proof.
  unfold Weighted.debt_factor, RiskCalculator.calculate_debt_to_equity_factor.
  split_bands; pick_member.
Qed.

Lemma profit_factor_in (x : float) :
  In (Weighted.profit_factor x) Weighted.profit_factors.
Proof.
  unfold Weighted.profit_factor, RiskCalculator.calculate_net_profit_factor.
  split_bands; pick_member.
Qed.

Lemma news_factor_in (x : float) :
  In (Weighted.news_factor x) Weighted.news_factors.
Proof.
  unfold Weighted.news_factor, RiskCalculator.calculate_negative_news_factor.
  split_bands; pick_member.
Qed.

Lemma payments_factor_in (x : float) :
  In (Weighted.payments_factor x) Weighted.payments_factors.
Proof.
  unfold Weighted.payments_factor,
    RiskCalculator.calculate_late_payments_factor.
  split_bands; pick_member.
Qed.

Lemma sector_multiplier_in (sector : string) :
  In (Weighted.sector_multiplier sector) Weighted.multipliers.
Proof.
  unfold Weighted.sector_multiplier.
  change (RiskCalculator.dict_get RiskCalculator.SECTOR_ADJUSTMENTS
            "general" 1.0%float) with 1.0%float.
  unfold RiskCalculator.SECTOR_ADJUSTMENTS.
  cbn [RiskCalculator.dict_get].
  split_bands; pick_member.
Qed.

Lemma for_all_factors_sound
    (test : float -> float -> float -> float -> bool) :
  Weighted.for_all_factors test = true ->
  forall x1 x2 x3 x4 : float,
    test (Weighted.debt_factor x1) (Weighted.profit_factor x2)
         (Weighted.news_factor x3) (Weighted.payments_factor x4) = true.
Proof.
  unfold Weighted.for_all_factors. intros Hall x1 x2 x3 x4.
  rewrite forallb_forall in Hall.
  specialize (Hall _ (debt_factor_in x1)).
  rewrite forallb_forall in Hall.
  specialize (Hall _ (profit_factor_in x2)).
  rewrite forallb_forall in Hall.
  specialize (Hall _ (news_factor_in x3)).
  rewrite forallb_forall in Hall.
  exact (Hall _ (payments_factor_in x4)).
Qed.

Lemma for_all_inputs_sound
    (test : float -> float -> float -> float -> float -> bool) :
  Weighted.for_all_inputs test = true ->
  forall (x1 x2 x3 x4 : float) (sector : string),
    test (Weighted.debt_factor x1) (Weighted.profit_factor x2)
         (Weighted.news_factor x3) (Weighted.payments_factor x4)
         (Weighted.sector_multiplier sector) = true.
Proof.
  unfold Weighted.for_all_inputs. intros Hall x1 x2 x3 x4 sector.
  pose proof (for_all_factors_sound _ Hall x1 x2 x3 x4) as Hm.
  cbv beta in Hm. rewrite forallb_forall in Hm.
  exact (Hm _ (sector_multiplier_in sector)).
Qed.

(** The trace aside, the weighted [compute_risk_score] is the arithmetic on
    the four factors and the multiplier, the level of the result, and the
    five explanations in order. *)
Lemma weighted_value
    (user_id company_name : string)
    (debt_to_equity net_profit negative_news_score late_payments_rate : float)
    (sector : string) (additional_factors : option PyFactors) :
  Log.value (RiskCalculator.compute_risk_score user_id company_name
               debt_to_equity net_profit negative_news_score
               late_payments_rate sector additional_factors)
  = (let score :=
       Weighted.final_score
         (Weighted.debt_factor debt_to_equity)
         (Weighted.profit_factor net_profit)
         (Weighted.news_factor negative_news_score)
         (Weighted.payments_factor late_payments_rate)
         (Weighted.sector_multiplier sector) in
     (score, RiskCalculator.risk_level_of score,
      [Weighted.debt_text debt_to_equity; Weighted.profit_text net_profit;
       Weighted.news_text negative_news_score;
       Weighted.payments_text late_payments_rate;
       RiskCalculator.sector_explanation sector
         (Weighted.sector_multiplier sector)])).
Proof.
  unfold RiskCalculator.compute_risk_score. rewrite value_then.
  rewrite debt_factor_eq, profit_factor_eq, news_factor_eq,
    payments_factor_eq.
  repeat (rewrite value_bind; cbv beta).
  unfold Weighted.final_score, Weighted.base_score,
    Weighted.sector_multiplier.
  cbv zeta.
  destruct (100 <? _)%float; reflexivity.
Qed.

(** Each factor helper leaves the explanations it is given in place, appends
    exactly one, and returns a factor between 0.1 and 1.0, whatever float it
    is given (NaN and the infinities included). *)
Theorem factor_helpers_append_and_bound
    (x : float) (explanations : list string) :
  (exists factor text,
      RiskCalculator.calculate_debt_to_equity_factor x explanations
      = (factor, explanations ++ [text])
      /\ (0.1 <=? factor)%float = true /\ (factor <=? 1.0)%float = true)
  /\ (exists factor text,
      RiskCalculator.calculate_net_profit_factor x explanations
      = (factor, explanations ++ [text])
      /\ (0.1 <=? factor)%float = true /\ (factor <=? 1.0)%float = true)
  /\ (exists factor text,
      RiskCalculator.calculate_negative_news_factor x explanations
      = (factor, explanations ++ [text])
      /\ (0.1 <=? factor)%float = true /\ (factor <=? 1.0)%float = true)
  /\ (exists factor text,
      RiskCalculator.calculate_late_payments_factor x explanations
      = (factor, explanations ++ [text])
      /\ (0.1 <=? factor)%float = true /\ (factor <=? 1.0)%float = true).
Proof.
  unfold RiskCalculator.calculate_debt_to_equity_factor,
    RiskCalculator.calculate_net_profit_factor,
    RiskCalculator.calculate_negative_news_factor,
    RiskCalculator.calculate_late_payments_factor.
  repeat split; split_bands; eexists; eexists; repeat split.
Qed.

Section WeightedScore.

Local Open Scope float_scope.

Variables (user_id company_name : string).
Variables (debt_to_equity net_profit negative_news_score
           late_payments_rate : float).
Variable sector : string.
Variable additional_factors : option PyFactors.

Let result : float * string * list string :=
  Log.value (RiskCalculator.compute_risk_score user_id company_name
               debt_to_equity net_profit negative_news_score
               late_payments_rate sector additional_factors).

(** The weighted score lies between 12.75 and 100 for every input: the cap
    of lines 100-103 bounds it above, the lowest bands in the sector with the
    smallest multiplier bound it below. *)
Theorem weighted_score_in_range :
  (12.75 <=? fst (fst result)) = true /\ (fst (fst result) <=? 100) = true.
Proof.
  unfold result. rewrite weighted_value. cbn [fst].
  assert (Hall : Weighted.for_all_inputs Weighted.score_in_range = true)
    by (vm_compute; reflexivity).
  pose proof (for_all_inputs_sound _ Hall debt_to_equity net_profit
                negative_news_score late_payments_rate sector) as H.
  unfold Weighted.score_in_range in H. cbv zeta in H.
  apply andb_true_iff in H. exact H.
Qed.

(** The weighted level is one of the three names and its bands are
    exhaustive and exclusive: score >= 71 exactly for High Risk,
    41 <= score < 71 exactly for Medium Risk, score < 41 exactly for
    Low Risk. *)
Theorem weighted_level_bands :
  let score := fst (fst result) in
  let risk_level := snd (fst result) in
  ((71 <=? score) = true <-> risk_level = "High Risk")
  /\ ((41 <=? score) = true /\ (score <? 71) = true
      <-> risk_level = "Medium Risk")
  /\ ((score <? 41) = true <-> risk_level = "Low Risk")
  /\ In risk_level ["High Risk"; "Medium Risk"; "Low Risk"].
Proof.
  unfold result. rewrite weighted_value. cbn [fst snd].
  assert (Hall : Weighted.for_all_inputs Weighted.level_matches_band = true)
    by (vm_compute; reflexivity).
  pose proof (for_all_inputs_sound _ Hall debt_to_equity net_profit
                negative_news_score late_payments_rate sector) as H.
  unfold Weighted.level_matches_band in H. cbv zeta in H.
  set (score := Weighted.final_score _ _ _ _ _) in *.
  apply andb_true_iff in H. destruct H as [H Hlow].
  apply andb_true_iff in H. destruct H as [Hhigh Hmedium].
  apply Bool.eqb_prop in Hhigh, Hmedium, Hlow.
  rewrite <- !String.eqb_eq, <- andb_true_iff.
  rewrite Hhigh, Hmedium, Hlow.
  repeat split; try (intros H; exact H).
  unfold RiskCalculator.risk_level_of.
  destruct (71 <=? score); [pick_member |].
  destruct (41 <=? score); pick_member.
Qed.

(** The weighted engine always returns exactly five explanations, in the
    order debt, profit, news, payments, sector: the first four are each one
    of the fixed texts of their helper, and the fifth ends with one of the
    three sector endings. *)
Theorem weighted_explanations_are_five :
  exists debt profit news payments prefix ending,
    snd result
    = [debt; profit; news; payments; (prefix ++ ending)%string]
    /\ In debt
         ["Debt-to-equity ratio is within healthy range";
          "Debt-to-equity ratio indicates moderate financial leverage";
          "High debt-to-equity ratio increases financial risk";
          "Very high debt-to-equity ratio indicates significant financial leverage"]
    /\ In profit
         ["Strong positive net profit indicates excellent financial health";
          "Positive net profit indicates good financial health";
          "Modest positive net profit";
          "Negative net profit shows concerning financial performance";
          "Significant losses indicate serious financial challenges"]
    /\ In news
         ["Low negative news coverage";
          "Moderate negative news coverage";
          "Negative press coverage may impact business reputation";
          "High negative news coverage suggests significant reputational risk"]
    /\ In payments
         ["Low rate of late payments suggests good cash flow management";
          "Moderate rate of late payments";
          "Elevated late payments rate may indicate cash flow issues";
          "High rate of late payments suggests cash flow problems"]
    /\ In ending [" sector has higher than average baseline risk";
                  " sector has lower than average baseline risk";
                  " sector has moderate baseline risk"].
Proof.
  unfold result. rewrite weighted_value. cbn [snd].
  exists (Weighted.debt_text debt_to_equity),
    (Weighted.profit_text net_profit),
    (Weighted.news_text negative_news_score),
    (Weighted.payments_text late_payments_rate),
    (PyStr.capitalize sector).
  assert (Hending :
    exists ending,
      RiskCalculator.sector_explanation sector
        (Weighted.sector_multiplier sector)
      = (PyStr.capitalize sector ++ ending)%string
      /\ In ending [" sector has higher than average baseline risk";
                    " sector has lower than average baseline risk";
                    " sector has moderate baseline risk"]).
  { unfold RiskCalculator.sector_explanation.
    destruct (1.0 <? _); [| destruct (_ <? 1.0)];
      eexists; (split; [reflexivity | pick_member]). }
  destruct Hending as (ending & -> & Hending).
  exists ending.
  split; [reflexivity |].
  split.
  { unfold Weighted.debt_text,
      RiskCalculator.calculate_debt_to_equity_factor.
    split_bands; pick_member. }
  split.
  { unfold Weighted.profit_text, RiskCalculator.calculate_net_profit_factor.
    split_bands; pick_member. }
  split.
  { unfold Weighted.news_text,
      RiskCalculator.calculate_negative_news_factor.
    split_bands; pick_member. }
  split; [| exact Hending].
  unfold Weighted.payments_text,
    RiskCalculator.calculate_late_payments_factor.
  split_bands; pick_member.
Qed.

(** The sector acts on the score through its multiplier only, and in the
    direction its sentence announces: against the same numbers in the
    general sector, a multiplier above 1 never lowers the score, one below 1
    never raises it, and a multiplier of 1 leaves it where it is. *)
Theorem weighted_sector_direction :
  let score := fst (fst result) in
  let general :=
    fst (fst (Log.value
      (RiskCalculator.compute_risk_score user_id company_name
         debt_to_equity net_profit negative_news_score late_payments_rate
         "general" additional_factors))) in
  let multiplier := Weighted.sector_multiplier sector in
  ((1.0 <? multiplier) = true -> (general <=? score) = true)
  /\ ((multiplier <? 1.0) = true -> (score <=? general) = true)
  /\ ((1.0 <? multiplier) = false -> (multiplier <? 1.0) = false ->
      (score <=? general) = true /\ (general <=? score) = true).
Proof.
  unfold result. rewrite !weighted_value. cbn [fst].
  change (Weighted.sector_multiplier "general") with 1.0.
  assert (Hall : Weighted.for_all_inputs Weighted.multiplier_moves_score
                 = true) by (vm_compute; reflexivity).
  pose proof (for_all_inputs_sound _ Hall debt_to_equity net_profit
                negative_news_score late_payments_rate sector) as H.
  unfold Weighted.multiplier_moves_score in H. cbv zeta in H.
  apply andb_true_iff in H. destruct H as [H Hequal].
  apply andb_true_iff in H. destruct H as [Habove Hbelow].
  split; [| split].
  - intros Hm. rewrite Hm in Habove. exact Habove.
  - intros Hm. rewrite Hm in Hbelow. exact Hbelow.
  - intros Hm Hm'. rewrite Hm, Hm' in Hequal.
    apply andb_true_iff in Hequal. exact Hequal.
Qed.

End WeightedScore.

(** A sector the table does not list is scored as the general sector: the
    missing key falls back to the multiplier 1.0, so score and level are
    those of "general" on the same numbers. *)
Theorem weighted_unknown_sector_is_general
    (user_id company_name : string)
    (debt_to_equity net_profit negative_news_score late_payments_rate : float)
    (sector : string) (additional_factors : option PyFactors) :
  PyStr.mem (PyStr.lower sector)
            (map fst RiskCalculator.SECTOR_ADJUSTMENTS) = false ->
  fst (Log.value
    (RiskCalculator.compute_risk_score user_id company_name debt_to_equity
       net_profit negative_news_score late_payments_rate sector
       additional_factors))
  = fst (Log.value
      (RiskCalculator.compute_risk_score user_id company_name debt_to_equity
         net_profit negative_news_score late_payments_rate "general"
         additional_factors)).
Proof.
  intros Hunknown. rewrite !weighted_value. cbn [fst].
  assert (Hone : Weighted.sector_multiplier sector = 1.0%float).
  { unfold Weighted.sector_multiplier.
    change (RiskCalculator.dict_get RiskCalculator.SECTOR_ADJUSTMENTS
              "general" 1.0%float) with 1.0%float.
    unfold RiskCalculator.SECTOR_ADJUSTMENTS in *.
    cbn [RiskCalculator.dict_get].
    unfold PyStr.mem in Hunknown. cbn [map fst existsb] in Hunknown.
    repeat match type of Hunknown with
           | (String.eqb _ ?k || _)%bool = false =>
               apply orb_false_elim in Hunknown;
               destruct Hunknown as [Hkey Hunknown];
               rewrite (String.eqb_sym k), Hkey; clear Hkey
           end.
    reflexivity. }
  rewrite Hone. reflexivity.
Qed.

Lemma weighted_unknown_sector_is_general_witness :
  fst (Log.value
    (RiskCalculator.compute_risk_score "u" "c" 2.5 (-1000) 0.8 0.2
       "Aerospace" None))
  = (76%float, "High Risk").
Proof.
  rewrite (weighted_unknown_sector_is_general "u" "c" 2.5 (-1000) 0.8 0.2
             "Aerospace" None eq_refl).
  reflexivity.
Defined.

(** Moving inputs into worse bands never lowers the weighted score: if each
    factor of one input is at most the matching factor of another, in the
    same sector, the first score is at most the second. *)
Theorem weighted_score_monotone_in_factors
    (user_id user_id' company_name company_name' : string)
    (debt_to_equity net_profit negative_news_score late_payments_rate : float)
    (debt_to_equity' net_profit' negative_news_score'
     late_payments_rate' : float)
    (sector : string)
    (additional_factors additional_factors' : option PyFactors) :
  (Weighted.debt_factor debt_to_equity
   <=? Weighted.debt_factor debt_to_equity')%float = true ->
  (Weighted.profit_factor net_profit
   <=? Weighted.profit_factor net_profit')%float = true ->
  (Weighted.news_factor negative_news_score
   <=? Weighted.news_factor negative_news_score')%float = true ->
  (Weighted.payments_factor late_payments_rate
   <=? Weighted.payments_factor late_payments_rate')%float = true ->
  (fst (fst (Log.value
     (RiskCalculator.compute_risk_score user_id company_name debt_to_equity
        net_profit negative_news_score late_payments_rate sector
        additional_factors)))
   <=?
   fst (fst (Log.value
     (RiskCalculator.compute_risk_score user_id' company_name'
        debt_to_equity' net_profit' negative_news_score'
        late_payments_rate' sector additional_factors'))))%float = true.
Proof.
  intros H1 H2 H3 H4. rewrite !weighted_value. cbn [fst].
  assert (Hall : Weighted.for_all_factors Weighted.worse_bands_score_higher
                 = true) by (vm_compute; reflexivity).
  pose proof (for_all_factors_sound _ Hall debt_to_equity net_profit
                negative_news_score late_payments_rate) as Hinner.
  unfold Weighted.worse_bands_score_higher in Hinner.
  pose proof (for_all_factors_sound _ Hinner debt_to_equity' net_profit'
                negative_news_score' late_payments_rate') as H.
  cbv beta in H. rewrite H1, H2, H3, H4 in H. cbn [andb] in H.
  rewrite forallb_forall in H.
  exact (H _ (sector_multiplier_in sector)).
Qed.

Lemma weighted_score_monotone_in_factors_witness :
  (fst (fst (Log.value
     (RiskCalculator.compute_risk_score "u" "a" 1.5 2000 0.3 0.05 "retail"
        None)))
   <=?
   fst (fst (Log.value
     (RiskCalculator.compute_risk_score "v" "b" 2.5 (-1000) 0.3 0.2 "retail"
        (Some [])))))%float = true.
Proof.
  apply weighted_score_monotone_in_factors; reflexivity.
Defined.

(** ** The sector is read case-insensitively *)

Lemma lower_char_idempotent (c : ascii) :
  PyStr.lower_char (PyStr.lower_char c) = PyStr.lower_char c.
Proof.
  destruct c as [b0 b1 b2 b3 b4 b5 b6 b7].
  destruct b0, b1, b2, b3, b4, b5, b6, b7; reflexivity.
Qed.

Lemma upper_lower_char (c : ascii) :
  PyStr.upper_char (PyStr.lower_char c) = PyStr.upper_char c.
Proof.
  destruct c as [b0 b1 b2 b3 b4 b5 b6 b7].
  destruct b0, b1, b2, b3, b4, b5, b6, b7; reflexivity.
Qed.

Lemma lower_idempotent (s : string) :
  PyStr.lower (PyStr.lower s) = PyStr.lower s.
Proof.
  induction s as [| c s IH]; simpl.
  - reflexivity.
  - rewrite lower_char_idempotent, IH. reflexivity.
Qed.

Lemma capitalize_lower (s : string) :
  PyStr.capitalize (PyStr.lower s) = PyStr.capitalize s.
Proof.
  destruct s as [| c s]; simpl.
  - reflexivity.
  - rewrite upper_lower_char, lower_idempotent. reflexivity.
Qed.

(** Two sectors with the same lower-case form are scored alike: the
    additive engine returns the same score, level and explanations for them,
    the weighted engine the same score and level, and the recommendation
    generator the same recommendations. *)
Theorem sector_is_case_insensitive
    (user_id company_name : string)
    (debt_to_equity net_profit negative_news_score late_payments_rate : float)
    (sector sector' : string) (additional_factors : option PyFactors) :
  PyStr.lower sector = PyStr.lower sector' ->
  Log.value (RiskScoring.compute_risk_score user_id company_name
               debt_to_equity net_profit negative_news_score
               late_payments_rate sector additional_factors)
  = Log.value (RiskScoring.compute_risk_score user_id company_name
                 debt_to_equity net_profit negative_news_score
                 late_payments_rate sector' additional_factors)
  /\ fst (Log.value (RiskCalculator.compute_risk_score user_id company_name
                       debt_to_equity net_profit negative_news_score
                       late_payments_rate sector additional_factors))
    = fst (Log.value (RiskCalculator.compute_risk_score user_id company_name
                        debt_to_equity net_profit negative_news_score
                        late_payments_rate sector' additional_factors))
  /\ (forall (risk_level : string) (score : float),
      RiskCalculator.get_risk_recommendations risk_level score sector
      = RiskCalculator.get_risk_recommendations risk_level score sector').
Proof.
  intros Hlower.
  split; [| split].
  - rewrite !compute_risk_score_value. unfold RiskScoring.apply_rules.
    rewrite Hlower. split_triggers; reflexivity.
  - rewrite !weighted_value. cbn [fst].
    unfold Weighted.sector_multiplier.
    rewrite Hlower. reflexivity.
  - intros risk_level score.
    unfold RiskCalculator.get_risk_recommendations.
    rewrite Hlower. reflexivity.
Qed.

Lemma sector_is_case_insensitive_witness :
  fst (Log.value (RiskCalculator.compute_risk_score "u" "c" 2.5 (-1000) 0.8
                    0.2 "OIL" None))
  = fst (Log.value (RiskCalculator.compute_risk_score "u" "c" 2.5 (-1000)
                      0.8 0.2 "oil" None)).
Proof.
  exact (proj1 (proj2 (sector_is_case_insensitive "u" "c" 2.5 (-1000) 0.8
                         0.2 "OIL" "oil" None eq_refl))).
Defined.

(** ** The recommendation generator, beyond its length *)

Section Recommendations.

Variable risk_level : string.
Variable score : float.
Variable sector : string.

Let recommendations : list string :=
  RiskCalculator.get_risk_recommendations risk_level score sector.

(** The list has at most five entries and never repeats one; for High Risk
    it starts with the three fixed recommendations, for Medium Risk with the
    two fixed ones. *)
Theorem recommendations_shape :
  (List.length recommendations <= 5)%nat
  /\ NoDup recommendations
  /\ (risk_level = "High Risk" ->
      firstn 3 recommendations
      = ["Conduct immediate comprehensive financial review";
         "Develop debt reduction strategy";
         "Implement stricter accounts receivable policies"])
  /\ (risk_level = "Medium Risk" ->
      firstn 2 recommendations
      = ["Quarterly financial health monitoring recommended";
         "Develop action plan for identified risk areas"]).
Proof.
  unfold recommendations, RiskCalculator.get_risk_recommendations,
    RiskCalculator.restructuring_recommendation,
    RiskCalculator.low_risk_recommendations.
  destruct (String.eqb risk_level "High Risk") eqn:Ehigh;
    [| destruct (String.eqb risk_level "Medium Risk") eqn:Emedium].
  - apply String.eqb_eq in Ehigh. subst risk_level.
    destruct (PyStr.mem _ _), (85 <? score)%float; cbn;
      (split; [lia | split; [| split; [reflexivity | discriminate]]]);
      repeat constructor; simpl; intuition discriminate.
  - apply String.eqb_eq in Emedium. subst risk_level.
    destruct (PyStr.mem _ _); cbn;
      (split; [lia | split; [| split; [discriminate | reflexivity]]]);
      repeat constructor; simpl; intuition discriminate.
  - apply String.eqb_neq in Ehigh, Emedium. cbn.
    split; [lia | split; [| split; intros; contradiction]].
    repeat constructor; simpl; intuition discriminate.
Qed.

(** The two sector-specific recommendations: the inventory one is given
    exactly to High Risk retail and manufacturing, the competitive
    positioning one exactly to Medium Risk technology and finance. *)
Theorem sector_specific_recommendations :
  (In "Review inventory management to improve cash flow" recommendations
   <-> risk_level = "High Risk"
       /\ PyStr.mem (PyStr.lower sector) ["retail"; "manufacturing"] = true)
  /\ (In "Evaluate competitive positioning in volatile market"
         recommendations
      <-> risk_level = "Medium Risk"
          /\ PyStr.mem (PyStr.lower sector) ["technology"; "finance"] = true).
Proof.
  unfold recommendations, RiskCalculator.get_risk_recommendations,
    RiskCalculator.restructuring_recommendation,
    RiskCalculator.low_risk_recommendations.
  destruct (String.eqb risk_level "High Risk") eqn:Ehigh;
    [| destruct (String.eqb risk_level "Medium Risk") eqn:Emedium].
  - apply String.eqb_eq in Ehigh. subst risk_level.
    destruct (PyStr.mem (PyStr.lower sector) ["retail"; "manufacturing"]),
      (85 <? score)%float; simpl; intuition discriminate.
  - apply String.eqb_eq in Emedium. subst risk_level.
    destruct (PyStr.mem (PyStr.lower sector) ["technology"; "finance"]);
      simpl; intuition discriminate.
  - apply String.eqb_neq in Ehigh, Emedium.
    simpl; intuition discriminate.
Qed.

End Recommendations.

Lemma recommendations_shape_witness :
  firstn 3 (RiskCalculator.get_risk_recommendations "High Risk" 90 "Retail")
  = ["Conduct immediate comprehensive financial review";
     "Develop debt reduction strategy";
     "Implement stricter accounts receivable policies"].
Proof.
  exact (proj1 (proj2 (proj2 (recommendations_shape "High Risk" 90 "Retail")))
           eq_refl).
Defined.

(** ** The evaluate route and the store *)

Section StoreFacts.

Local Open Scope Z_scope.

Lemma insert_all_length (key time : Z) (objs : list Models.RiskEvaluation) :
  List.length (Database.insert_all key time objs) = List.length objs.
Proof.
  revert key. induction objs as [| obj objs IH]; intros key; simpl.
  - reflexivity.
  - rewrite IH. reflexivity.
Qed.

Lemma insert_all_app (key time : Z) (objs objs' : list Models.RiskEvaluation) :
  Database.insert_all key time (objs ++ objs')
  = (Database.insert_all key time objs
     ++ Database.insert_all (key + Z.of_nat (List.length objs)) time objs')%list.
Proof.
  revert key. induction objs as [| obj objs IH]; intros key.
  - simpl. rewrite Z.add_0_r. reflexivity.
  - cbn [Database.insert_all app List.length]. rewrite IH.
    replace (key + 1 + Z.of_nat (List.length objs))
      with (key + Z.of_nat (S (List.length objs))) by lia.
    reflexivity.
Qed.

(** The store step, in one equation: on a writable store the pending objects
    and the new row are written and the new row's id is returned; otherwise
    nothing is written. *)
Lemma store_evaluation_value
    (req : Routes.RiskRequest) (score : float) (risk_level : string)
    (explanations : list string) (db : Database.Session) :
  Log.value (Routes.store_evaluation req score risk_level explanations db)
  = if Database.writable db then
      let rows :=
        Database.insert_all (Database.next_id db) (Database.clock db)
          (Database.pending db
           ++ [Stored.row_of req score risk_level explanations]) in
      (Some (Database.next_id db
             + Z.of_nat (List.length (Database.pending db))),
       Database.mkSession
         (Database.table db ++ rows)
         (Database.next_id db + Z.of_nat (List.length rows))
         (Database.clock db) true (Database.persistent db ++ rows) [])
    else
      (None,
       Database.mkSession (Database.table db) (Database.next_id db)
         (Database.clock db) false (Database.persistent db) []).
Proof.
  unfold Routes.store_evaluation, Database.add, Database.commit.
  fold (Stored.row_of req score risk_level explanations).
  cbn [Database.writable Database.pending Database.next_id Database.clock
       Database.table Database.persistent].
  destruct (Database.writable db) eqn:Hw.
  - unfold Database.refresh. cbn [Database.persistent].
    rewrite nth_error_app2 by lia.
    replace (List.length (Database.persistent db)
             + List.length (Database.pending db)
             - List.length (Database.persistent db))%nat
      with (List.length (Database.pending db)) by lia.
    rewrite insert_all_app.
    rewrite nth_error_app2 by (rewrite insert_all_length; lia).
    rewrite insert_all_length, Nat.sub_diag.
    reflexivity.
  - reflexivity.
Qed.

End StoreFacts.

Section EvaluateAndLookup.

Local Open Scope Z_scope.

Variable req : Routes.RiskRequest.
Variable db : Database.Session.

(** The handler, the trace aside: the engine, the recommendations, the store
    step. *)
Lemma evaluate_risk_value :
  Log.value (Routes.evaluate_risk req db)
  = (let '(score, risk_level, explanations) :=
       Log.value (Routes.engine_inputs RiskCalculator.compute_risk_score req) in
     let '(evaluation_id, db') :=
       Log.value
         (Routes.store_evaluation req score risk_level explanations db) in
     (Routes.Ok200
        (Routes.mkRiskResponse score explanations risk_level
           (RiskCalculator.get_risk_recommendations risk_level score
              (Routes.sector req))
           evaluation_id),
      db')).
Proof.
  unfold Routes.evaluate_risk, Routes.engine_inputs.
  rewrite value_then, value_bind.
  destruct (Log.value (RiskCalculator.compute_risk_score _ _ _ _ _ _ _ _))
    as [[score risk_level] explanations].
  rewrite value_bind.
  destruct (Log.value (Routes.store_evaluation _ _ _ _ _)) as [eid db'].
  reflexivity.
Qed.

(** The weighted score is a number the store keeps as it is and the reply
    can carry. *)
Lemma weighted_score_is_stored
    (user_id company_name : string)
    (debt_to_equity net_profit negative_news_score late_payments_rate : float)
    (sector : string) (additional_factors : option PyFactors) :
  let score :=
    fst (fst (Log.value
      (RiskCalculator.compute_risk_score user_id company_name debt_to_equity
         net_profit negative_news_score late_payments_rate sector
         additional_factors))) in
  Database.stored_float (Some score) = Some score
  /\ PrimFloat.is_finite score = true.
Proof.
  rewrite weighted_value. cbn [fst].
  assert (Hall : Weighted.for_all_inputs Weighted.score_is_stored = true)
    by (vm_compute; reflexivity).
  pose proof (for_all_inputs_sound _ Hall debt_to_equity net_profit
                negative_news_score late_payments_rate sector) as H.
  unfold Weighted.score_is_stored in H. cbv zeta in H.
  set (score := Weighted.final_score _ _ _ _ _) in *.
  apply andb_true_iff in H. destruct H as [H Hfinite].
  apply andb_true_iff in H. destruct H as [Hnan Hzero].
  apply negb_true_iff in Hnan, Hzero.
  unfold Database.stored_float. rewrite Hnan, Hzero.
  split; [reflexivity | exact Hfinite].
Qed.

(** A successful evaluation stores what it returns: on a writable store with
    nothing pending, the reply carries the next id of the store, the table
    grows by exactly one row with that id, and the row holds the request's
    strings, its numbers as the store keeps them, the returned score and
    level, and explanations that read back as the returned ones. *)
Theorem evaluate_risk_stores_its_assessment :
  Database.writable db = true ->
  Database.pending db = [] ->
  let '(reply, db') := Log.value (Routes.evaluate_risk req db) in
  exists body row,
    reply = Routes.Ok200 body
    /\ Routes.evaluation_id body = Some (Database.next_id db)
    /\ Database.table db' = (Database.table db ++ [row])%list
    /\ Database.next_id db' = Database.next_id db + 1
    /\ Models.id row = Some (Database.next_id db)
    /\ Models.created_at row = Some (Database.clock db)
    /\ Models.user_id row = Some (Routes.user_id req)
    /\ Models.company_name row = Some (Routes.companyName req)
    /\ Models.sector row = Some (Routes.sector req)
    /\ Models.debt_to_equity row
       = Database.stored_float (Some (Routes.debtToEquity req))
    /\ Models.net_profit row
       = Database.stored_float (Some (Routes.netProfit req))
    /\ Models.negative_news_score row
       = Database.stored_float (Some (Routes.negativeNewsScore req))
    /\ Models.late_payments_rate row
       = Database.stored_float (Some (Routes.latePaymentsRate req))
    /\ Models.risk_score row = Some (Routes.score body)
    /\ Models.recommendation row = Some (Routes.recommendation body)
    /\ Models.explanations row
       = Some (map Unicode.of_string (Routes.explanations body)).
Proof.
  intros Hw Hpending. rewrite evaluate_risk_value.
  pose proof (weighted_score_is_stored
                (Routes.user_id req) (Routes.companyName req)
                (Routes.debtToEquity req) (Routes.netProfit req)
                (Routes.negativeNewsScore req) (Routes.latePaymentsRate req)
                (Routes.sector req) (Some (Routes.additionalFactors req)))
    as [Hstored _].
  unfold Routes.engine_inputs. cbv zeta in Hstored.
  destruct (Log.value (RiskCalculator.compute_risk_score _ _ _ _ _ _ _ _))
    as [[score risk_level] explanations].
  cbn [fst] in Hstored.
  rewrite store_evaluation_value, Hw, Hpending.
  cbn [app Database.insert_all List.length Z.of_nat].
  eexists. eexists.
  split; [reflexivity |].
  cbn [Routes.evaluation_id Routes.score Routes.recommendation
       Routes.explanations Database.table Database.next_id].
  rewrite Z.add_0_r.
  split; [reflexivity |]. split; [reflexivity |]. split; [reflexivity |].
  unfold Models.explanations, Stored.row_of, Models.set_explanations,
    Database.inserted.
  cbn [Models.id Models.created_at Models.user_id Models.company_name
       Models.sector Models.debt_to_equity Models.net_profit
       Models.negative_news_score Models.late_payments_rate
       Models.risk_score Models.recommendation Models.explanations_json].
  rewrite dumps_truthy, loads_dumps, Hstored.
  - repeat split.
  - apply Forall_forall. intros s Hs. apply in_map_iff in Hs.
    destruct Hs as (text & <- & _). apply of_string_sound.
Qed.

End EvaluateAndLookup.

Lemma evaluate_risk_stores_its_assessment_witness :
  exists body row,
    fst (Log.value (Routes.evaluate_risk Samples.req_api Samples.db_up))
    = Routes.Ok200 body
    /\ Routes.evaluation_id body = Some 1%Z
    /\ Database.table
         (snd (Log.value (Routes.evaluate_risk Samples.req_api Samples.db_up)))
       = [row]
    /\ Models.explanations row
       = Some (map Unicode.of_string (Routes.explanations body)).
Proof.
  pose proof (evaluate_risk_stores_its_assessment Samples.req_api
                Samples.db_up eq_refl eq_refl) as H.
  destruct (Log.value (Routes.evaluate_risk Samples.req_api Samples.db_up))
    as [reply db'].
  destruct H as (body & row & Hreply & Hid & Htable & H).
  exists body, row. cbn [fst snd].
  repeat split; try assumption. apply H.
Defined.


(** ** Looking evaluations up *)

Section Lookup.

Local Open Scope Z_scope.

(** A row with level, score and sector gets the recommendations the
    generator gives for them. *)
Lemma recommendations_of_complete_row
    (row : Models.RiskEvaluation) (risk_level sector : string)
    (score : float) :
  Models.recommendation row = Some risk_level ->
  Models.risk_score row = Some score ->
  Models.sector row = Some sector ->
  Routes.recommendations_of_row row
  = Some (RiskCalculator.get_risk_recommendations risk_level score sector).
Proof.
  intros Hlevel Hscore Hsector.
  unfold Routes.recommendations_of_row,
    RiskCalculator.get_risk_recommendations.
  rewrite Hlevel, Hscore, Hsector.
  destruct (String.eqb risk_level "High Risk"); [reflexivity |].
  destruct (String.eqb risk_level "Medium Risk"); reflexivity.
Qed.

Lemma find_id_fresh (key bound : Z) (rows : list Models.RiskEvaluation) :
  Stored.ids_below bound rows -> bound <= key ->
  find (Database.id_is key) rows = None.
Proof.
  intros Hbelow Hkey. induction Hbelow as [| row rows (k & Hk & Hb) _ IH].
  - reflexivity.
  - cbn [find]. unfold Database.id_is at 1. rewrite Hk.
    destruct (Z.eqb_spec k key); [lia | exact IH].
Qed.

Lemma find_app_fresh {A : Type} (test : A -> bool) (l l' : list A) :
  find test l = None -> find test (l ++ l') = find test l'.
Proof.
  induction l as [| x l IH]; cbn [find app].
  - reflexivity.
  - destruct (test x); [discriminate | exact IH].
Qed.


Variable req : Routes.RiskRequest.
Variable db : Database.Session.

(** A finite number is stored as a number the reply can carry. *)
Lemma finite_float_is_json (f : float) :
  PrimFloat.is_finite f = true ->
  Routes.float_is_json (Database.stored_float (Some f)) = true.
Proof.
  intros Hfinite. unfold Database.stored_float.
  assert (Hnan : PrimFloat.is_nan f = false).
  { unfold PrimFloat.is_finite in Hfinite.
    apply negb_true_iff, orb_false_iff in Hfinite. apply Hfinite. }
  rewrite Hnan. destruct (f =? 0)%float; [reflexivity | exact Hfinite].
Qed.

(** What is stored can be looked up: after a successful evaluation of a
    request whose four numbers are finite, the lookup by the returned id
    answers 200 with the row just written and with the very recommendations
    the evaluation returned. *)
Theorem get_evaluation_after_evaluate_risk :
  Stored.consistent db ->
  Database.writable db = true ->
  Database.pending db = [] ->
  PrimFloat.is_finite (Routes.debtToEquity req) = true ->
  PrimFloat.is_finite (Routes.netProfit req) = true ->
  PrimFloat.is_finite (Routes.negativeNewsScore req) = true ->
  PrimFloat.is_finite (Routes.latePaymentsRate req) = true ->
  let '(reply, db') := Log.value (Routes.evaluate_risk req db) in
  exists body evaluation_id row,
    reply = Routes.Ok200 body
    /\ Routes.evaluation_id body = Some evaluation_id
    /\ Routes.get_evaluation evaluation_id db'
       = Routes.Ok200
           (Routes.mkEvaluationDetail row (Routes.recommendations body))
    /\ Models.risk_score row = Some (Routes.score body)
    /\ Models.recommendation row = Some (Routes.recommendation body)
    /\ Models.explanations row
       = Some (map Unicode.of_string (Routes.explanations body)).
Proof.
  intros [Hbelow _] Hw Hpending Hd Hp Hn Hl. rewrite evaluate_risk_value.
  pose proof (weighted_score_is_stored
                (Routes.user_id req) (Routes.companyName req)
                (Routes.debtToEquity req) (Routes.netProfit req)
                (Routes.negativeNewsScore req) (Routes.latePaymentsRate req)
                (Routes.sector req) (Some (Routes.additionalFactors req)))
    as [Hstored Hscore].
  unfold Routes.engine_inputs. cbv zeta in Hstored, Hscore.
  destruct (Log.value (RiskCalculator.compute_risk_score _ _ _ _ _ _ _ _))
    as [[score risk_level] explanations].
  cbn [fst] in Hstored, Hscore.
  rewrite store_evaluation_value, Hw, Hpending.
  cbn [app Database.insert_all List.length Z.of_nat].
  rewrite Z.add_0_r.
  set (row := Database.inserted _ _ _).
  exists (Routes.mkRiskResponse score explanations risk_level
            (RiskCalculator.get_risk_recommendations risk_level score
               (Routes.sector req))
            (Some (Database.next_id db))),
    (Database.next_id db), row.
  assert (Hrisk : Models.risk_score row = Some score).
  { subst row. unfold Stored.row_of, Models.set_explanations.
    cbn [Database.inserted Models.risk_score]. exact Hstored. }
  split; [reflexivity |]. split; [reflexivity |].
  split; [| split; [exact Hrisk | split; [reflexivity |]]].
  - unfold Routes.get_evaluation, Database.first_by_id.
    cbn [Database.table].
    rewrite find_app_fresh
      by (apply (find_id_fresh _ _ _ Hbelow); lia).
    cbn [find]. unfold Database.id_is at 1.
    replace (Models.id row) with (Some (Database.next_id db))
      by (subst row; reflexivity).
    rewrite Z.eqb_refl.
    rewrite (recommendations_of_complete_row _ risk_level (Routes.sector req)
               score); [| subst row; reflexivity | exact Hrisk
                        | subst row; reflexivity].
    replace (Routes.row_is_json row) with true; [reflexivity |].
    symmetry. unfold Routes.row_is_json. rewrite Hrisk.
    subst row. unfold Stored.row_of, Models.set_explanations.
    cbn [Database.inserted Models.debt_to_equity Models.net_profit
         Models.negative_news_score Models.late_payments_rate].
    rewrite !finite_float_is_json by assumption.
    cbn [andb Routes.float_is_json]. exact Hscore.
  - subst row.
    unfold Models.explanations, Stored.row_of, Models.set_explanations,
      Database.inserted.
    cbn [Models.explanations_json Routes.explanations].
    rewrite dumps_truthy. apply loads_dumps.
    apply Forall_forall. intros s Hs. apply in_map_iff in Hs.
    destruct Hs as (text & <- & _). apply of_string_sound.
Qed.

(** The listing of a company after a successful evaluation: the new row is
    appended to the listing of the request's company, and no other
    company's listing changes.  Names are matched exactly. *)
Theorem get_company_evaluations_after_evaluate_risk :
  Database.writable db = true ->
  Database.pending db = [] ->
  let db' := snd (Log.value (Routes.evaluate_risk req db)) in
  (exists row,
      Routes.get_company_evaluations (Routes.companyName req) db'
      = (Routes.get_company_evaluations (Routes.companyName req) db
         ++ [row])%list
      /\ Models.id row = Some (Database.next_id db))
  /\ (forall name : string,
      name <> Routes.companyName req ->
      Routes.get_company_evaluations name db'
      = Routes.get_company_evaluations name db).
Proof.
  intros Hw Hpending. cbv zeta. rewrite evaluate_risk_value.
  destruct (Log.value (Routes.engine_inputs _ req))
    as [[score risk_level] explanations].
  rewrite store_evaluation_value, Hw, Hpending.
  cbn [app Database.insert_all List.length Z.of_nat snd].
  unfold Routes.get_company_evaluations, Database.all_by_company_name.
  cbn [Database.table]. split.
  - eexists. rewrite filter_app. cbn [filter].
    unfold Database.company_name_is at 2.
    cbn [Database.inserted Stored.row_of Models.set_explanations
         Models.company_name].
    rewrite String.eqb_refl. split; reflexivity.
  - intros name Hname. rewrite filter_app. cbn [filter].
    unfold Database.company_name_is at 2.
    cbn [Database.inserted Stored.row_of Models.set_explanations
         Models.company_name].
    apply not_eq_sym in Hname. apply String.eqb_neq in Hname.
    rewrite Hname. apply app_nil_r.
Qed.

(** A failed write leaves no trace: after an evaluation on a store that
    rejects the write, every lookup by id and every company listing answers
    as before. *)
Theorem failed_store_leaves_lookups_unchanged :
  Database.writable db = false ->
  let db' := snd (Log.value (Routes.evaluate_risk req db)) in
  (forall evaluation_id : Z,
      Routes.get_evaluation evaluation_id db'
      = Routes.get_evaluation evaluation_id db)
  /\ (forall name : string,
      Routes.get_company_evaluations name db'
      = Routes.get_company_evaluations name db).
Proof.
  intros Hw. cbv zeta. rewrite evaluate_risk_value.
  destruct (Log.value (Routes.engine_inputs _ req))
    as [[score risk_level] explanations].
  rewrite store_evaluation_value, Hw. cbn [snd].
  split; reflexivity.
Qed.

(** [additionalFactors] is neither scored nor stored: the same request with
    other additional factors gets the same reply and leaves the same
    store. *)
Theorem additional_factors_are_not_persisted (factors : PyFactors) :
  Log.value (Routes.evaluate_risk (Stored.with_factors req factors) db)
  = Log.value (Routes.evaluate_risk req db).
Proof.
  rewrite !evaluate_risk_value. unfold Routes.engine_inputs.
  rewrite !weighted_value. reflexivity.
Qed.

End Lookup.


Lemma get_evaluation_after_evaluate_risk_witness :
  exists body evaluation_id row,
    fst (Log.value (Routes.evaluate_risk Samples.req_extreme Samples.db_up))
    = Routes.Ok200 body
    /\ Routes.evaluation_id body = Some evaluation_id
    /\ Routes.get_evaluation evaluation_id
         (snd (Log.value
            (Routes.evaluate_risk Samples.req_extreme Samples.db_up)))
       = Routes.Ok200
           (Routes.mkEvaluationDetail row (Routes.recommendations body)).
Proof.
  pose proof (get_evaluation_after_evaluate_risk Samples.req_extreme
                Samples.db_up (conj (Forall_nil _) (NoDup_nil _))
                eq_refl eq_refl eq_refl eq_refl eq_refl eq_refl) as H.
  rewrite (surjective_pairing
             (Log.value
                (Routes.evaluate_risk Samples.req_extreme Samples.db_up)))
    in H.
  destruct H as (body & eid & row & Hreply & Hid & Hget & _).
  exists body, eid, row. repeat split; assumption.
Defined.

Lemma get_company_evaluations_after_evaluate_risk_witness :
  Routes.get_company_evaluations "Other Corp"
    (snd (Log.value (Routes.evaluate_risk Samples.req_api Samples.db_up)))
  = Routes.get_company_evaluations "Other Corp" Samples.db_up.
Proof.
  refine (proj2 (get_company_evaluations_after_evaluate_risk Samples.req_api
                   Samples.db_up eq_refl eq_refl) "Other Corp" _).
  discriminate.
Defined.

Lemma failed_store_leaves_lookups_unchanged_witness :
  Routes.get_evaluation 1
    (snd (Log.value (Routes.evaluate_risk Samples.req_api Samples.db_down)))
  = Routes.get_evaluation 1 Samples.db_down.
Proof.
  exact (proj1 (failed_store_leaves_lookups_unchanged Samples.req_api
                  Samples.db_down eq_refl) 1%Z).
Defined.

(** ** The text the [explanations] setter stores *)

Section StoredText.

Import Unicode Json.
Local Open Scope N_scope.

Let plain (s : str) : Prop := Forall (fun c => printable c = true) s.

Lemma plain_app (s1 s2 : str) : plain s1 -> plain s2 -> plain (s1 ++ s2).
Proof. intros H1 H2. apply Forall_app. split; assumption. Qed.

Lemma plain_hex_digit (d : N) : d < 16 -> printable (hex_digit d) = true.
Proof.
  intros Hd. unfold printable, hex_digit.
  destruct (N.ltb_spec d 10);
    apply andb_true_iff; split; apply N.leb_le; lia.
Qed.

Lemma plain_unicode_escape (n : N) : plain (unicode_escape n).
Proof.
  unfold plain, unicode_escape, hex4.
  repeat constructor; apply plain_hex_digit, mod16_lt.
Qed.

Lemma plain_escape_char (c : N) : plain (escape_char c).
Proof.
  unfold escape_char.
  repeat match goal with
         | |- plain (if ?b then _ else _) => destruct b eqn:?
         end;
    try (repeat constructor; fail).
  - constructor; [assumption | constructor].
  - apply plain_unicode_escape.
  - cbv zeta. apply plain_app; apply plain_unicode_escape.
Qed.

Lemma plain_escape (s : str) : plain (escape s).
Proof.
  induction s as [| c s IH]; cbn [escape].
  - constructor.
  - apply plain_app; [apply plain_escape_char | exact IH].
Qed.

Lemma plain_encode_string (s : str) : plain (encode_string s).
Proof.
  unfold encode_string. constructor; [reflexivity |].
  apply plain_app; [apply plain_escape | repeat constructor].
Qed.

Lemma plain_join (l : list str) :
  plain (join [44; 32] (map encode_string l)).
Proof.
  induction l as [| x l IH].
  - constructor.
  - destruct l as [| y l].
    + apply plain_encode_string.
    + change (join [44; 32] (map encode_string (x :: y :: l)))
        with (encode_string x ++ [44; 32] ++
              join [44; 32] (map encode_string (y :: l))).
      apply plain_app; [apply plain_encode_string |].
      apply plain_app; [repeat constructor | exact IH].
Qed.

(** Whatever code points the explanations hold, the text written to the
    column is printable ASCII only: every character outside [' '..'~'] is
    stored as an escape. *)
Theorem stored_explanations_are_printable_ascii
    (self : Models.RiskEvaluation) (value : list Unicode.str) :
  exists text,
    Models.explanations_json (Models.set_explanations self value) = Some text
    /\ Forall (fun c => (32 <=? c) && (c <=? 126) = true) text.
Proof.
  exists (dumps value). split; [reflexivity |].
  unfold dumps.
  apply plain_app; [repeat constructor |].
  apply plain_app; [apply plain_join | repeat constructor].
Qed.

End StoredText.
